(** * requests-service: URL templating, dispatch and session caching

    A shallow embedding of [requestsservice/services.py],
    [requestsservice/client.py], [requestsservice/sessions.py] and
    [requestsservice/exceptions.py], with the properties of the URL builder,
    the dispatcher, the root-URL setter and the session cache. *)

From Stdlib Require Import ZArith Lia Bool Ascii String.
From stdpp Require Import base option gmap strings pretty.

Local Open Scope string_scope.
Local Open Scope Z_scope.

(** ** The Python string and value primitives the source relies on *)

Module Py.

(** [len(s)] *)
Definition len (s : string) : Z := Z.of_nat (String.length s).

Fixpoint drop (n : nat) (s : string) : string :=
  match n, s with
  | O, _ => s
  | S _, EmptyString => EmptyString
  | S k, String _ s' => drop k s'
  end.

Fixpoint take (n : nat) (s : string) : string :=
  match n, s with
  | O, _ => EmptyString
  | S _, EmptyString => EmptyString
  | S k, String c s' => String c (take k s')
  end.

(** A slice bound, clipped into [0 .. len s] the way Python clips it:
    a negative bound counts from the end. *)
Definition clip (s : string) (i : Z) : nat :=
  Z.to_nat (if i <? 0 then Z.max 0 (len s + i) else Z.min i (len s)).

(** [s[lo:hi]]; [None] is an omitted bound. *)
Definition slice (s : string) (lo hi : option Z) : string :=
  let a := match lo with Some i => clip s i | None => O end in
  let b := match hi with Some j => clip s j | None => String.length s end in
  take (b - a) (drop a s).

(** [s[i]]; [None] stands for Python's IndexError. *)
Definition item (s : string) (i : Z) : option ascii :=
  let j := if i <? 0 then len s + i else i in
  if (0 <=? j) && (j <? len s) then String.get (Z.to_nat j) s else None.

Fixpoint find_at (c : ascii) (s : string) (pos : Z) : Z :=
  match s with
  | EmptyString => -1
  | String a s' => if Ascii.eqb a c then pos else find_at c s' (pos + 1)
  end.

(** [s.find(c, start)] for a one-character needle [c]: the least index
    [>= start] holding [c], or [-1]. *)
Definition find (s : string) (c : ascii) (start : Z) : Z :=
  let a := clip s start in
  find_at c (drop a s) (Z.of_nat a).

(** [s.replace(old, new)]: every non-overlapping occurrence of [old], from
    the left.  [skip] counts the characters of a matched occurrence still to
    be passed over. *)
Fixpoint replace_from (old new : string) (skip : nat) (s : string) : string :=
  match s with
  | EmptyString => EmptyString
  | String c s' =>
      match skip with
      | S k => replace_from old new k s'
      | O =>
          if String.prefix old s
          then new +:+ replace_from old new (String.length old - 1) s'
          else String c (replace_from old new O s')
      end
  end.

(** With an empty [old], Python puts [new] before every character and at
    the end. *)
Fixpoint replace_empty (new s : string) : string :=
  match s with
  | EmptyString => new
  | String c s' => new +:+ String c (replace_empty new s')
  end.

Definition replace (s old new : string) : string :=
  match old with
  | EmptyString => replace_empty new s
  | String _ _ => replace_from old new O s
  end.

(** The values a path parameter can take. *)
Inductive value : Type :=
| VNone
| VBool (b : bool)
| VInt (z : Z)
| VStr (s : string).

(** [str(v)] *)
Definition str (v : value) : string :=
  match v with
  | VNone => "None"
  | VBool true => "True"
  | VBool false => "False"
  | VInt z => pretty z
  | VStr s => s
  end.

(** Truth value of a string: non-empty. *)
Definition nonempty (s : string) : bool :=
  match s with EmptyString => false | String _ _ => true end.

(** [d.get(k)] *)
Definition get (d : gmap string value) (k : string) : value :=
  default VNone (d !! k).

End Py.

(** ** Exceptions and results *)

(** A transport response: only the status code is inspected; the rest is
    carried along untouched. *)
Record response : Type := Response {
  status_code : Z;
  resp_headers : list (string * string);
  resp_body : string
}.

Inductive exn : Type :=
| IndexError
| TypeError
| AttributeError
| ServiceException (r : response)       (* exceptions.py *)
| HttpClientException (r : response)    (* client.py *)
| TransportError (what : string).       (* raised by the transport itself *)

(** The outcome of running a piece of the source with a bound on the number
    of loop iterations. *)
Inductive result (A : Type) : Type :=
| Ok (a : A)
| Raise (e : exn)
| OutOfFuel.
Arguments Ok {A} a.
Arguments Raise {A} e.
Arguments OutOfFuel {A}.

(** Sequencing: an exception or an exhausted bound ends the computation. *)
#[export] Instance result_bind : MBind result := fun A B k r =>
  match r with
  | Ok a => k a
  | Raise e => Raise e
  | OutOfFuel => OutOfFuel
  end.

(** ** The objects of the program *)

(** A timeout: a number of seconds or a (connect, read) pair. *)
Inductive timeout_value : Type :=
| TNumber (seconds : Z)
| TPair (connect read : Z).

(** Truth value of an optional timeout, as [timeout if timeout else ...]
    tests it: [None] and the number zero are false. *)
Definition timeout_truthy (t : option timeout_value) : bool :=
  match t with
  | None => false
  | Some (TNumber z) => negb (z =? 0)
  | Some (TPair _ _) => true
  end.

(** auth.py: a [JwtAuth] holds its token. *)
Inductive auth_object : Type :=
| JwtAuth (token : Py.value).

(** What [JwtAuth.__call__] does to the headers of an outgoing request. *)
Definition JwtAuth_call (a : auth_object) (headers : gmap string string)
  : gmap string string :=
  match a with
  | JwtAuth token => <["Authorization" := "JWT " +:+ Py.str token]> headers
  end.

(** An auth class is called with keyword arguments and yields an auth
    object, or raises. *)
Definition auth_class : Type := gmap string Py.value -> result auth_object.

(** The class [JwtAuth] called with keyword arguments: exactly the keyword
    [token] is accepted. *)
Definition JwtAuth_class : auth_class := fun kwargs =>
  match kwargs !! "token" with
  | Some t => if bool_decide (dom kwargs = {[ "token" ]}) then Ok (JwtAuth t)
              else Raise TypeError
  | None => Raise TypeError
  end.

(** A transport session is a mutable object; a [session_ref] is its
    identity, an index into the store of sessions. *)
Definition session_ref : Type := nat.

Record session_state : Type := Session {
  adapters : gmap string Z;              (* mounted prefix -> max_retries *)
  session_headers : gmap string string
}.

(** [self._requestor]: the session, or the function [requests.request]. *)
Inductive requestor : Type :=
| UseSession (s : session_ref)
| UseRequestsFunction.

(** An [HttpService] or [HttpClient] instance. *)
Record instance : Type := Instance {
  _url_root : string;
  _requestor : requestor;
  _auth : option auth_object;
  _timeout : option timeout_value
}.

(** The arguments of one [self._requestor.request(...)] call. *)
Record transport_call : Type := TransportCall {
  tc_method : string;
  tc_url : string;
  tc_params : option (gmap string string);
  tc_data : option string;
  tc_headers : option (gmap string string);
  tc_timeout : option timeout_value;
  tc_auth : option auth_object
}.

Definition issued : Type := requestor * transport_call.

(** What the transport does with a call: it answers with a response, or
    fails on its own (connection refused, timeout, ...). *)
Inductive transport_answer : Type :=
| Answers (r : response)
| Fails (what : string).

(** The state shared by all calls: the store of session objects, the two
    class-level [__sessions] dictionaries (one in sessions.py, one in
    client.py), the transport calls issued so far, and the transport itself,
    which answers a call given the calls before it. *)
Record world : Type := World {
  sessions : list session_state;
  services_cache : gmap string session_ref;   (* sessions.SessionCache *)
  clients_cache : gmap string session_ref;    (* client.SessionCache *)
  log : list issued;
  transport : list issued -> issued -> transport_answer
}.

(** Computations over the shared state that may raise. *)
Definition M (A : Type) : Type := world -> world * result A.

#[export] Instance M_ret : MRet M := fun A a w => (w, Ok a).
#[export] Instance M_bind : MBind M := fun A B k m w =>
  match m w with
  | (w', Ok a) => k a w'
  | (w', Raise e) => (w', Raise e)
  | (w', OutOfFuel) => (w', OutOfFuel)
  end.

Definition lift {A} (r : result A) : M A := fun w => (w, r).
Definition raise {A} (e : exn) : M A := fun w => (w, Raise e).

(** [requests.Session()]: a new object, distinct from all earlier ones. *)
Definition Session_new : M session_ref := fun w =>
  (World (sessions w ++ [Session ∅ ∅]) (services_cache w) (clients_cache w)
         (log w) (transport w),
   Ok (length (sessions w))).

Definition update_session (s : session_ref) (f : session_state -> session_state)
  : M unit := fun w =>
  (World (alter f s (sessions w)) (services_cache w) (clients_cache w)
         (log w) (transport w),
   Ok tt).

(** [session.mount(prefix, adapter=adapter)], an adapter being given by its
    [max_retries]. *)
Definition mount (s : session_ref) (prefix : string) (adapter : Z) : M unit :=
  update_session s (fun st => Session (<[prefix := adapter]> (adapters st))
                                      (session_headers st)).

(** [session.headers.update(d)]: the entries of [d] win. *)
Definition headers_update (s : session_ref) (d : gmap string string) : M unit :=
  update_session s (fun st => Session (adapters st) (d ∪ session_headers st)).

Definition log_call (rq : requestor) (call : transport_call) (w : world) : world :=
  World (sessions w) (services_cache w) (clients_cache w)
        (log w ++ [(rq, call)]) (transport w).

(** [self._requestor.request(...)].  On a session the call is issued and the
    transport answers.  The function [requests.request] has no attribute
    [request]: looking it up raises AttributeError, and nothing is issued. *)
Definition request (rq : requestor) (call : transport_call) : M response :=
  fun w =>
  match rq with
  | UseSession _ =>
      (log_call rq call w,
       match transport w (log w) (rq, call) with
       | Answers r => Ok r
       | Fails what => Raise (TransportError what)
       end)
  | UseRequestsFunction => (w, Raise AttributeError)
  end.

(** [path_params if path_params else {}] *)
Definition or_empty_dict (d : option (gmap string Py.value)) : gmap string Py.value :=
  match d with
  | Some d => if bool_decide (d = ∅) then ∅ else d
  | None => ∅
  end.

(** Passing [path_params] as keyword arguments to a method whose positional
    parameters are [self] and [path]: a key that names one of them cannot be
    bound a second time. *)
Definition splat (path_params : gmap string Py.value) : result (gmap string Py.value) :=
  if bool_decide (is_Some (path_params !! "self") ∨ is_Some (path_params !! "path"))
  then Raise TypeError
  else Ok path_params.

Definition char_is (c : ascii) (o : option ascii) : bool :=
  match o with Some a => Ascii.eqb a c | None => false end.

(** ** sessions.py *)

Module SessionCache.

Definition get (name : string) : M (option session_ref) := fun w =>
  (w, Ok (services_cache w !! name)).

Definition set (name : string) (session : session_ref) : M unit := fun w =>
  (World (sessions w) (<[name := session]> (services_cache w)) (clients_cache w)
         (log w) (transport w),
   Ok tt).

End SessionCache.

(** ** services.py *)

Module HttpService.

(** The setter of the [url_root] property. *)
Definition url_root (value : string) : result string :=
  match Py.item value (-1) with
  | None => Raise IndexError
  | Some last => if Ascii.eqb last "/" then Ok value else Ok (value +:+ "/")
  end.

Definition __init__ (url_root_arg : string) (session : option session_ref)
           (auth : option auth_object) (timeout : option timeout_value)
  : result instance :=
  root ← url_root url_root_arg;
  Ok (Instance root
               (match session with Some s => UseSession s | None => UseRequestsFunction end)
               auth timeout).

(** The first half of [_build_url]: drop a leading slash, force a trailing
    one. *)
Definition normalize_path (path : string) : result string :=
  if Py.nonempty path then
    let path :=
      if char_is "/" (Py.item path 0) then Py.slice path (Some 1) None else path in
    match Py.item path (-1) with
    | None => Raise IndexError
    | Some last =>
        if negb (Ascii.eqb last "/") && (Py.find path "?" 0 =? -1)
        then Ok (path +:+ "/")
        else Ok path
    end
  else Ok path.

(** The [while start >= 0] loop of [_build_url], on its two variables. *)
Fixpoint substitute (fuel : nat) (path_params : gmap string Py.value)
         (url : string) (start : Z) : result string :=
  if start >=? 0 then
    match fuel with
    | O => OutOfFuel
    | S fuel' =>
        let end_ := Py.find url "}" start in
        let replace := Py.slice url (Some start) (Some (end_ + 1)) in
        let param := Py.str (Py.get path_params (Py.slice replace (Some 1) (Some (-1)))) in
        let url := Py.replace url replace (if Py.nonempty param then param else "") in
        let start := Py.find url "{" 0 in
        substitute fuel' path_params url start
    end
  else Ok url.

Definition _build_url (fuel : nat) (self : instance) (path : string)
           (path_params : gmap string Py.value) : result string :=
  path ← normalize_path path;
  let url := _url_root self +:+ path in
  let start := Py.find url "{" 0 in
  substitute fuel path_params url start.

Definition make_request (fuel : nat) (self : instance) (method : string)
           (path : string) (path_params : option (gmap string Py.value))
           (query_params : option (gmap string string)) (data : option string)
           (headers : option (gmap string string))
           (timeout : option timeout_value) (raise_exception : bool)
  : M response :=
  let path_params := or_empty_dict path_params in
  url ← lift (kwargs ← splat path_params; _build_url fuel self path kwargs);
  res ← request (_requestor self)
        (TransportCall method url query_params data headers
           (if timeout_truthy timeout then timeout else _timeout self)
           (_auth self));
  if (status_code res >=? 300) && raise_exception
  then raise (ServiceException res)
  else mret res.

(** Shortcut methods *)

Definition get (fuel : nat) (self : instance) (path : string)
           (path_params : option (gmap string Py.value))
           (query_params : option (gmap string string))
           (headers : option (gmap string string)) (raise_exception : bool)
  : M response :=
  make_request fuel self "GET" path path_params query_params None headers None
               raise_exception.

Definition post (fuel : nat) (self : instance) (path : string)
           (path_params : option (gmap string Py.value)) (data : option string)
           (headers : option (gmap string string)) (raise_exception : bool)
  : M response :=
  make_request fuel self "POST" path path_params None data headers None
               raise_exception.

Definition put (fuel : nat) (self : instance) (path : string)
           (path_params : option (gmap string Py.value)) (data : option string)
           (headers : option (gmap string string)) (raise_exception : bool)
  : M response :=
  make_request fuel self "PUT" path path_params None data headers None
               raise_exception.

Definition patch (fuel : nat) (self : instance) (path : string)
           (path_params : option (gmap string Py.value)) (data : option string)
           (headers : option (gmap string string)) (raise_exception : bool)
  : M response :=
  make_request fuel self "PATCH" path path_params None data headers None
               raise_exception.

Definition delete (fuel : nat) (self : instance) (path : string)
           (path_params : option (gmap string Py.value))
           (headers : option (gmap string string)) (raise_exception : bool)
  : M response :=
  make_request fuel self "DELETE" path path_params None None headers None
               raise_exception.

End HttpService.

(** The class attributes a factory (a subclass of [HttpServiceFactory], or of
    [HttpClient] used through [make_client]) is configured with, and the
    class's name. *)
Record factory : Type := Factory {
  __name__ : string;
  service_root : string;
  default_headers : gmap string string;
  timeout : option timeout_value;
  max_retires : Z;
  auth : option auth_class
}.

(** Under [if auth:], the auth class called with the keyword arguments
    [auth_kwargs] when they are given and non-empty, else with none. *)
Definition make_auth (a : option auth_class)
           (auth_kwargs : option (gmap string Py.value)) : result (option auth_object) :=
  match a with
  | Some cls => o ← cls (or_empty_dict auth_kwargs); Ok (Some o)
  | None => Ok None
  end.

Module HttpServiceFactory.

(** The class attributes of [HttpServiceFactory] itself. *)
Definition defaults (name : string) : factory :=
  Factory name "" ∅ (Some (TPair 3 10)) 3 None.

Definition make_service (cls : factory)
           (auth_kwargs : option (gmap string Py.value)) : M instance :=
  cached ← SessionCache.get (__name__ cls);
  session ← match cached with
            | Some session => mret session
            | None =>
                let adapter := max_retires cls in
                session ← Session_new;
                _ ← mount session "http://" adapter;
                _ ← mount session "https://" adapter;
                _ ← headers_update session (default_headers cls);
                _ ← SessionCache.set (__name__ cls) session;
                mret session
            end;
  auth ← lift (make_auth (auth cls) auth_kwargs);
  lift (HttpService.__init__ (service_root cls) (Some session) auth None).

End HttpServiceFactory.

(** ** client.py *)

(** The [SessionCache] class that client.py declares for itself. *)
Module ClientSessionCache.

Definition get (name : string) : M (option session_ref) := fun w =>
  (w, Ok (clients_cache w !! name)).

Definition set (name : string) (session : session_ref) : M unit := fun w =>
  (World (sessions w) (services_cache w) (<[name := session]> (clients_cache w))
         (log w) (transport w),
   Ok tt).

End ClientSessionCache.

Module HttpClient.

(** The class attributes of [HttpClient] itself. *)
Definition defaults (name : string) : factory :=
  Factory name "" ∅ (Some (TPair 3 10)) 3 None.

Definition url_root (value : string) : result string :=
  match Py.item value (-1) with
  | None => Raise IndexError
  | Some last => if Ascii.eqb last "/" then Ok value else Ok (value +:+ "/")
  end.

Definition __init__ (url_root_arg : string) (session : option session_ref)
           (auth : option auth_object) (timeout : option timeout_value)
  : result instance :=
  root ← url_root url_root_arg;
  Ok (Instance root
               (match session with Some s => UseSession s | None => UseRequestsFunction end)
               auth timeout).

Definition make_client (cls : factory)
           (auth_kwargs : option (gmap string Py.value)) : M instance :=
  cached ← ClientSessionCache.get (__name__ cls);
  session ← match cached with
            | Some session => mret session
            | None =>
                let adapter := max_retires cls in
                session ← Session_new;
                _ ← mount session "http://" adapter;
                _ ← mount session "https://" adapter;
                _ ← headers_update session (default_headers cls);
                _ ← ClientSessionCache.set (__name__ cls) session;
                mret session
            end;
  auth ← lift (make_auth (auth cls) auth_kwargs);
  lift (__init__ (service_root cls) (Some session) auth None).

Definition normalize_path (path : string) : result string :=
  if Py.nonempty path then
    let path :=
      if char_is "/" (Py.item path 0) then Py.slice path (Some 1) None else path in
    match Py.item path (-1) with
    | None => Raise IndexError
    | Some last =>
        if negb (Ascii.eqb last "/") && (Py.find path "?" 0 =? -1)
        then Ok (path +:+ "/")
        else Ok path
    end
  else Ok path.

Fixpoint substitute (fuel : nat) (path_params : gmap string Py.value)
         (url : string) (start : Z) : result string :=
  if start >=? 0 then
    match fuel with
    | O => OutOfFuel
    | S fuel' =>
        let end_ := Py.find url "}" start in
        let replace := Py.slice url (Some start) (Some (end_ + 1)) in
        let param := Py.str (Py.get path_params (Py.slice replace (Some 1) (Some (-1)))) in
        let url := Py.replace url replace (if Py.nonempty param then param else "") in
        let start := Py.find url "{" 0 in
        substitute fuel' path_params url start
    end
  else Ok url.

Definition _build_url (fuel : nat) (self : instance) (path : string)
           (path_params : gmap string Py.value) : result string :=
  path ← normalize_path path;
  let url := _url_root self +:+ path in
  let start := Py.find url "{" 0 in
  substitute fuel path_params url start.

Definition make_request (fuel : nat) (self : instance) (method : string)
           (path : string) (path_params : option (gmap string Py.value))
           (query_params : option (gmap string string)) (data : option string)
           (headers : option (gmap string string))
           (timeout : option timeout_value) (raise_exception : bool)
  : M response :=
  let path_params := or_empty_dict path_params in
  url ← lift (kwargs ← splat path_params; _build_url fuel self path kwargs);
  res ← request (_requestor self)
        (TransportCall method url query_params data headers
           (if timeout_truthy timeout then timeout else _timeout self)
           (_auth self));
  if (status_code res >=? 300) && raise_exception
  then raise (HttpClientException res)
  else mret res.

Definition get (fuel : nat) (self : instance) (path : string)
           (path_params : option (gmap string Py.value))
           (query_params : option (gmap string string))
           (headers : option (gmap string string)) (raise_exception : bool)
  : M response :=
  make_request fuel self "GET" path path_params query_params None headers None
               raise_exception.

Definition post (fuel : nat) (self : instance) (path : string)
           (path_params : option (gmap string Py.value)) (data : option string)
           (headers : option (gmap string string)) (raise_exception : bool)
  : M response :=
  make_request fuel self "POST" path path_params None data headers None
               raise_exception.

Definition put (fuel : nat) (self : instance) (path : string)
           (path_params : option (gmap string Py.value)) (data : option string)
           (headers : option (gmap string string)) (raise_exception : bool)
  : M response :=
  make_request fuel self "PUT" path path_params None data headers None
               raise_exception.

Definition patch (fuel : nat) (self : instance) (path : string)
           (path_params : option (gmap string Py.value)) (data : option string)
           (headers : option (gmap string string)) (raise_exception : bool)
  : M response :=
  make_request fuel self "PATCH" path path_params None data headers None
               raise_exception.

Definition delete (fuel : nat) (self : instance) (path : string)
           (path_params : option (gmap string Py.value))
           (headers : option (gmap string string)) (raise_exception : bool)
  : M response :=
  make_request fuel self "DELETE" path path_params None None headers None
               raise_exception.

End HttpClient.

(** ** Vocabulary of the statements *)

(** The program before any factory call or request, over a transport [t]. *)
Definition initial_world (t : list issued -> issued -> transport_answer) : world :=
  World [] ∅ ∅ [] t.

(** The two implementations of the client. *)
Inductive implementation : Type := Service | Client.

Definition build_url_of (i : implementation) :=
  match i with Service => HttpService._build_url | Client => HttpClient._build_url end.

Definition init_of (i : implementation) :=
  match i with Service => HttpService.__init__ | Client => HttpClient.__init__ end.

Definition url_root_of (i : implementation) :=
  match i with Service => HttpService.url_root | Client => HttpClient.url_root end.

Definition make_request_of (i : implementation) :=
  match i with Service => HttpService.make_request | Client => HttpClient.make_request end.

Definition factory_of (i : implementation) :=
  match i with
  | Service => HttpServiceFactory.make_service
  | Client => HttpClient.make_client
  end.

Definition cache_of (i : implementation) (w : world) : gmap string session_ref :=
  match i with Service => services_cache w | Client => clients_cache w end.

(** The error raised on a response with status [>= 300]. *)
Definition service_error (i : implementation) (r : response) : exn :=
  match i with Service => ServiceException r | Client => HttpClientException r end.

(** The five verb shortcuts, called with the arguments each of them takes. *)
Inductive verb : Type := GET | POST | PUT | PATCH | DELETE.

Definition verb_name (v : verb) : string :=
  match v with
  | GET => "GET" | POST => "POST" | PUT => "PUT" | PATCH => "PATCH"
  | DELETE => "DELETE"
  end.

Definition shortcut (i : implementation) (v : verb) (fuel : nat) (self : instance)
           (path : string) (path_params : option (gmap string Py.value))
           (query_params : option (gmap string string)) (data : option string)
           (headers : option (gmap string string)) (raise_exception : bool)
  : M response :=
  match i, v with
  | Service, GET => HttpService.get fuel self path path_params query_params headers raise_exception
  | Service, POST => HttpService.post fuel self path path_params data headers raise_exception
  | Service, PUT => HttpService.put fuel self path path_params data headers raise_exception
  | Service, PATCH => HttpService.patch fuel self path path_params data headers raise_exception
  | Service, DELETE => HttpService.delete fuel self path path_params headers raise_exception
  | Client, GET => HttpClient.get fuel self path path_params query_params headers raise_exception
  | Client, POST => HttpClient.post fuel self path path_params data headers raise_exception
  | Client, PUT => HttpClient.put fuel self path path_params data headers raise_exception
  | Client, PATCH => HttpClient.patch fuel self path path_params data headers raise_exception
  | Client, DELETE => HttpClient.delete fuel self path path_params headers raise_exception
  end.

(** The transport calls that running [m] in [w] adds to the log. *)
Definition issued_by {A} (m : M A) (w : world) : list issued :=
  drop (length (log w)) (log (m w).1).

(** The last character of a string, if any. *)
Fixpoint last_char (s : string) : option ascii :=
  match s with
  | EmptyString => None
  | String c EmptyString => Some c
  | String _ s' => last_char s'
  end.

Definition ends_with (c : ascii) (s : string) : bool :=
  char_is c (last_char s).

Fixpoint contains (c : ascii) (s : string) : bool :=
  match s with
  | EmptyString => false
  | String a s' => Ascii.eqb a c || contains c s'
  end.

Fixpoint count_char (c : ascii) (s : string) : nat :=
  match s with
  | EmptyString => O
  | String a s' => ((if Ascii.eqb a c then 1 else 0) + count_char c s')%nat
  end.

(** The number of opening braces still unmatched after reading [s] from the
    left, starting with [d] of them; a closing brace with no opening brace
    before it matches nothing. *)
Fixpoint open_braces (d : nat) (s : string) : nat :=
  match s with
  | EmptyString => d
  | String a s' =>
      if Ascii.eqb a "{" then open_braces (S d) s'
      else if Ascii.eqb a "}" then open_braces (Nat.pred d) s'
      else open_braces d s'
  end.

(** Every opening brace of [s] is followed by a closing brace that matches
    it. *)
Definition braces_matched (s : string) : Prop := open_braces 0 s = O.

(** How many more opening than closing braces [s] has, and the largest
    such excess among the proper suffixes of [s]. *)
Definition excess (s : string) : Z :=
  Z.of_nat (count_char "{" s) - Z.of_nat (count_char "}" s).

Fixpoint worst_excess (s : string) : Z :=
  match s with
  | EmptyString => 0
  | String _ s' => Z.max (excess s') (worst_excess s')
  end.

(** No parameter value has an opening brace in its string form. *)
Definition brace_free_values (params : gmap string Py.value) : Prop :=
  map_Forall (fun _ v => contains "{" (Py.str v) = false) params.

(** Path normalisation in the words of the specification: strip a single
    leading separator; if the path is then non-empty, does not end with a
    separator and contains no [?], append a separator. *)
Definition spec_normalize_path (path : string) : string :=
  let stripped :=
    match path with
    | String first rest => if Ascii.eqb first "/" then rest else path
    | EmptyString => path
    end in
  if Py.nonempty stripped && negb (ends_with "/" stripped)
     && negb (contains "?" stripped)
  then stripped +:+ "/"
  else stripped.

(** Root normalisation in the words of the specification. *)
Definition spec_normalize_root (root : string) : string :=
  if ends_with "/" root then root else root +:+ "/".

Definition normalize_of (i : implementation) :=
  match i with
  | Service => HttpService.normalize_path
  | Client => HttpClient.normalize_path
  end.

Definition substitute_of (i : implementation) :=
  match i with Service => HttpService.substitute | Client => HttpClient.substitute end.

(** What a shortcut passes on as query parameters and as body. *)
Definition verb_query (v : verb) (query_params : option (gmap string string))
  : option (gmap string string) :=
  match v with GET => query_params | _ => None end.

Definition verb_data (v : verb) (data : option string) : option string :=
  match v with POST | PUT | PATCH => data | _ => None end.

(** The URL a dispatcher call builds, or the failure of building it. *)
Definition url_for (i : implementation) (fuel : nat) (self : instance)
           (path : string) (path_params : option (gmap string Py.value))
  : result string :=
  kwargs ← splat (or_empty_dict path_params);
  build_url_of i fuel self path kwargs.

(** The one difference between the two dispatchers: the name of the error. *)
Definition rename_error {A} (r : result A) : result A :=
  match r with
  | Raise (ServiceException res) => Raise (HttpClientException res)
  | other => other
  end.

Definition requestor_of (session : option session_ref) : requestor :=
  match session with Some s => UseSession s | None => UseRequestsFunction end.

Definition svc : instance := Instance "http://svc/" (UseSession 0%nat) None None.

(** What a program does with the library: it calls a factory, or sends a
    request through a client it holds.  The [__sessions] dictionaries are
    written by the factories only. *)
Inductive action : Type :=
| CallFactory (i : implementation) (cls : factory)
              (auth_kwargs : option (gmap string Py.value))
| CallMakeRequest (i : implementation) (fuel : nat) (self : instance)
                  (method path : string)
                  (path_params : option (gmap string Py.value))
                  (query_params : option (gmap string string))
                  (data : option string) (headers : option (gmap string string))
                  (timeout : option timeout_value) (raise_exception : bool).

Definition run_action (a : action) (w : world) : world :=
  match a with
  | CallFactory i cls auth_kwargs => (factory_of i cls auth_kwargs w).1
  | CallMakeRequest i fuel self method path pp qp data h t re =>
      (make_request_of i fuel self method path pp qp data h t re w).1
  end.

Definition run (acts : list action) (w : world) : world :=
  foldl (fun w a => run_action a w) w acts.

(** The invariant of the two caches: a cached session exists in the store;
    a session is cached under one name of one cache only; and there are as
    many sessions as cached names. *)
Definition cache_invariant (w : world) : Prop :=
  (forall i name r, cache_of i w !! name = Some r -> (r < length (sessions w))%nat)
  /\ (forall i j name1 name2 r,
        cache_of i w !! name1 = Some r -> cache_of j w !! name2 = Some r ->
        i = j /\ name1 = name2)
  /\ length (sessions w) = (size (services_cache w) + size (clients_cache w))%nat.

Definition not_found : response := Response 404 [] "not found".

(** A client whose default timeout is three seconds. *)
Definition svc3 : instance :=
  Instance "http://svc/" (UseSession 0%nat) None (Some (TNumber 3)).

Definition other (i : implementation) : implementation :=
  match i with Service => Client | Client => Service end.

(** The store after [requests.Session()], the two [mount]s and the update
    of the headers. *)
Definition store_with_new_session (cls : factory) (w : world) : list session_state :=
  alter (fun st => Session (adapters st) (default_headers cls ∪ session_headers st))
    (length (sessions w))
    (alter (fun st => Session (<["https://" := max_retires cls]> (adapters st))
                              (session_headers st))
       (length (sessions w))
       (alter (fun st => Session (<["http://" := max_retires cls]> (adapters st))
                                 (session_headers st))
          (length (sessions w))
          (sessions w ++ [Session ∅ ∅])%list)).

Definition world_with_new_session (i : implementation) (cls : factory) (w : world)
  : world :=
  match i with
  | Service =>
      World (store_with_new_session cls w)
            (<[__name__ cls := length (sessions w)]> (services_cache w))
            (clients_cache w) (log w) (transport w)
  | Client =>
      World (store_with_new_session cls w) (services_cache w)
            (<[__name__ cls := length (sessions w)]> (clients_cache w))
            (log w) (transport w)
  end.

(** Two factories, configured for two services. *)
Definition Orders : factory :=
  Factory "Orders" "http://orders" ∅ (Some (TPair 3 10)) 3 (Some JwtAuth_class).

Definition Billing : factory :=
  Factory "Billing" "http://billing/" ∅ (Some (TPair 3 10)) 3 None.

(** A URL read as a template: literal text and placeholders. *)
Inductive segment : Type :=
| Lit (text : string)
| Hole (name : string).

Definition segment_text (seg : segment) : string :=
  match seg with
  | Lit text => text
  | Hole name => String "{" (name +:+ "}")
  end.

Fixpoint template_text (tpl : list segment) : string :=
  match tpl with
  | [] => ""
  | seg :: rest => segment_text seg +:+ template_text rest
  end.

(** What a template stands for under a parameter mapping: each placeholder
    gives way to the string form of what [path_params.get] returns. *)
Definition render_segment (params : gmap string Py.value) (seg : segment) : string :=
  match seg with
  | Lit text => text
  | Hole name => Py.str (Py.get params name)
  end.

Fixpoint render (params : gmap string Py.value) (tpl : list segment) : string :=
  match tpl with
  | [] => ""
  | seg :: rest => render_segment params seg +:+ render params rest
  end.

(** Literal text has no opening brace; a placeholder's name has no brace. *)
Definition segment_ok (seg : segment) : Prop :=
  match seg with
  | Lit text => contains "{" text = false
  | Hole name => contains "{" name = false /\ contains "}" name = false
  end.

Definition template_ok (tpl : list segment) : Prop := Forall segment_ok tpl.

Fixpoint holes (tpl : list segment) : nat :=
  match tpl with
  | [] => O
  | Lit _ :: rest => holes rest
  | Hole _ :: rest => S (holes rest)
  end.

(** The template after every placeholder called [name] gave way to [new]. *)
Definition fill_segment (name new : string) (seg : segment) : segment :=
  match seg with
  | Lit text => Lit text
  | Hole other_name => if String.eqb other_name name then Lit new else Hole other_name
  end.

Definition fill (name new : string) (tpl : list segment) : list segment :=
  map (fill_segment name new) tpl.

(** The same type name, configured differently. *)
Definition OrdersAgain : factory :=
  Factory "Orders" "http://orders-replica/" {[ "Accept" := "text/plain" ]}
          None 9 None.

Definition world_with_orders : world :=
  (HttpServiceFactory.make_service Orders (Some {[ "token" := Py.VStr "a" ]})
     (initial_world (fun _ _ => Answers not_found))).1.

Definition orders_session : session_state :=
  Session (<["https://" := 3]> (<["http://" := 3]> ∅)) ∅.

Definition later_actions : list action :=
  [CallFactory Service Billing None;
   CallFactory Client Orders None;
   CallMakeRequest Service 1 svc "GET" "/x/{id}/" (Some {[ "id" := Py.VInt 7 ]})
                   None None None None false;
   CallFactory Service OrdersAgain None].

(** * Properties *)

(** ** Strings *)

Section StringFacts.

Implicit Types (s p q : string) (c a : ascii).

Lemma append_nil p : "" +:+ p = p.
Proof. reflexivity. Qed.

Lemma append_cons a s p : String a s +:+ p = String a (s +:+ p).
Proof. reflexivity. Qed.

Lemma append_empty_r s : s +:+ "" = s.
Proof.
  induction s as [|a s IH]; [reflexivity |]. now rewrite append_cons, IH.
Qed.

Lemma append_assoc s p q : (s +:+ p) +:+ q = s +:+ (p +:+ q).
Proof.
  induction s as [|a s IH]; [reflexivity |]. now rewrite !append_cons, IH.
Qed.

Lemma length_append s p :
  String.length (s +:+ p) = (String.length s + String.length p)%nat.
Proof.
  induction s as [|a s IH]; [reflexivity |]. rewrite append_cons. simpl.
  now rewrite IH.
Qed.

Lemma last_char_app s c : last_char (s +:+ String c "") = Some c.
Proof.
  induction s as [|a s IH]; [reflexivity |]. rewrite append_cons. simpl.
  destruct (s +:+ String c "") eqn:E; [destruct s; discriminate | exact IH].
Qed.

Lemma last_char_split s c :
  last_char s = Some c -> exists p, s = p +:+ String c "".
Proof.
  induction s as [|a s IH]; simpl; [discriminate |].
  destruct s as [|b s].
  - intros [= ->]. now exists "".
  - intros H. destruct (IH H) as [p Hp]. exists (String a p).
    rewrite append_cons. now rewrite <- Hp.
Qed.

Lemma ends_with_iff s c :
  ends_with c s = true <-> exists p, s = p +:+ String c "".
Proof.
  unfold ends_with, char_is. split.
  - destruct (last_char s) as [a|] eqn:E; [|discriminate].
    intros H%Ascii.eqb_eq. subst a. now apply last_char_split.
  - intros [p ->]. rewrite last_char_app. apply Ascii.eqb_refl.
Qed.

Lemma get_last s a : String.get (String.length s) (String a s) = last_char (String a s).
Proof.
  revert a. induction s as [|b s IH]; intros a; [reflexivity |].
  change (String.get (String.length s) (String b s) = last_char (String b s)).
  apply IH.
Qed.

(** [s[-1]] is the last character, and fails on the empty string only. *)
Lemma item_last s : Py.item s (-1) = last_char s.
Proof.
  destruct s as [|a s]; [reflexivity |].
  unfold Py.item, Py.len.
  change (-1 <? 0) with true. cbv iota.
  replace (Z.of_nat (String.length (String a s)) + -1) with (Z.of_nat (String.length s))
    by (simpl String.length; lia).
  replace (0 <=? Z.of_nat (String.length s)) with true by (symmetry; apply Z.leb_le; lia).
  replace (Z.of_nat (String.length s) <? Z.of_nat (String.length (String a s))) with true
    by (symmetry; apply Z.ltb_lt; simpl String.length; lia).
  rewrite Nat2Z.id. apply get_last.
Qed.

Lemma item_first a s : Py.item (String a s) 0 = Some a.
Proof.
  unfold Py.item, Py.len. change (0 <? 0) with false. cbv iota.
  replace (0 <? Z.of_nat (String.length (String a s))) with true
    by (symmetry; apply Z.ltb_lt; simpl String.length; lia).
  reflexivity.
Qed.

Lemma take_all s : Py.take (String.length s) s = s.
Proof. induction s as [|a s IH]; simpl; [reflexivity | now rewrite IH]. Qed.

(** [s[1:]] drops the first character. *)
Lemma slice_tail a s : Py.slice (String a s) (Some 1) None = s.
Proof.
  unfold Py.slice, Py.clip, Py.len. change (1 <? 0) with false. cbv iota.
  replace (Z.min 1 (Z.of_nat (String.length (String a s)))) with 1
    by (simpl String.length; lia).
  change (Z.to_nat 1) with 1%nat. simpl String.length. simpl Py.drop.
  replace (S (String.length s) - 1)%nat with (String.length s) by lia.
  apply take_all.
Qed.

Lemma find_at_absent c s pos :
  contains c s = false -> Py.find_at c s pos = -1.
Proof.
  revert pos. induction s as [|a s IH]; intros pos; simpl; [reflexivity |].
  destruct (Ascii.eqb a c); simpl; [discriminate | auto].
Qed.

Lemma find_at_present c s pos :
  contains c s = true ->
  pos <= Py.find_at c s pos < pos + Z.of_nat (String.length s).
Proof.
  revert pos. induction s as [|a s IH]; intros pos; simpl String.length; simpl;
    [discriminate |].
  destruct (Ascii.eqb a c); simpl; [lia |].
  intros H. specialize (IH (pos + 1) H). lia.
Qed.

Lemma find_from_0 s c : Py.find s c 0 = Py.find_at c s 0.
Proof.
  unfold Py.find, Py.clip, Py.len. change (0 <? 0) with false. cbv iota.
  replace (Z.min 0 (Z.of_nat (String.length s))) with 0 by lia. reflexivity.
Qed.

(** [s.find(c) == -1] says that [c] does not occur in [s]. *)
Lemma find_eq_minus_1 s c : (Py.find s c 0 =? -1) = negb (contains c s).
Proof.
  rewrite find_from_0. destruct (contains c s) eqn:E; simpl.
  - apply Z.eqb_neq. pose proof (find_at_present c s 0 E). lia.
  - apply Z.eqb_eq. now apply find_at_absent.
Qed.

End StringFacts.

(** ** Root normalisation and construction *)

Lemma last_char_none (s : string) : last_char s = None -> s = "".
Proof.
  induction s as [|a s IH]; [reflexivity |]. simpl.
  destruct s; [discriminate | intros H; now specialize (IH H)].
Qed.

Lemma url_root_nonempty (i : implementation) (value : string) :
  value <> "" -> url_root_of i value = Ok (spec_normalize_root value).
Proof.
  intros Hne.
  assert (H : exists c, last_char value = Some c).
  { destruct (last_char value) as [c|] eqn:E; [now exists c |].
    now apply last_char_none in E. }
  destruct H as [c Hc].
  destruct i; simpl; unfold HttpService.url_root, HttpClient.url_root;
    rewrite item_last, Hc; unfold spec_normalize_root, ends_with; rewrite Hc;
    simpl; now destruct (Ascii.eqb c "/").
Qed.

Lemma spec_normalize_root_ends (value : string) :
  ends_with "/" (spec_normalize_root value) = true.
Proof.
  unfold spec_normalize_root. destruct (ends_with "/" value) eqn:E; [exact E |].
  apply ends_with_iff. now exists value.
Qed.

Lemma spec_normalize_root_nonempty (value : string) : spec_normalize_root value <> "".
Proof.
  pose proof (spec_normalize_root_ends value) as H.
  intros E. rewrite E in H. discriminate.
Qed.

Lemma spec_normalize_root_idem (value : string) :
  spec_normalize_root (spec_normalize_root value) = spec_normalize_root value.
Proof.
  unfold spec_normalize_root at 1. now rewrite spec_normalize_root_ends.
Qed.

Lemma init_nonempty (i : implementation) (value : string) session a t :
  value <> "" ->
  init_of i value session a t
  = Ok (Instance (spec_normalize_root value) (requestor_of session) a t).
Proof.
  intros Hne. pose proof (url_root_nonempty i value Hne) as H.
  destruct i; simpl in *; unfold HttpService.__init__, HttpClient.__init__;
    rewrite H; reflexivity.
Qed.

(** C6, as amended: for every non-empty root, in both implementations, the
    setter succeeds; it leaves a root that ends with the separator as it is
    and appends the separator to one that does not; the stored root ends with
    the separator and setting it again changes nothing; the constructor
    stores that root.  "http://svc" and "http://svc/" both give
    "http://svc/". *)
Theorem root_normalization (i : implementation) (value : string)
        (session : option session_ref) (a : option auth_object)
        (t : option timeout_value) :
  value <> "" ->
  exists root,
    url_root_of i value = Ok root
    /\ (ends_with "/" value = true -> root = value)
    /\ (ends_with "/" value = false -> root = value +:+ "/")
    /\ ends_with "/" root = true
    /\ url_root_of i root = Ok root
    /\ init_of i value session a t = Ok (Instance root (requestor_of session) a t)
    /\ url_root_of i "http://svc" = Ok "http://svc/"
    /\ url_root_of i "http://svc/" = Ok "http://svc/".
Proof.
  intros Hne. exists (spec_normalize_root value).
  split; [now apply url_root_nonempty |].
  split; [unfold spec_normalize_root; now intros -> |].
  split; [unfold spec_normalize_root; now intros -> |].
  split; [apply spec_normalize_root_ends |].
  split.
  { rewrite url_root_nonempty by apply spec_normalize_root_nonempty.
    now rewrite spec_normalize_root_idem. }
  split; [now apply init_nonempty |].
  split; now destruct i.
Qed.

Lemma root_normalization_witness :
  "http://svc" <> ""
  /\ exists root,
      url_root_of Service "http://svc" = Ok root
      /\ init_of Service "http://svc" (Some 0%nat) None None
         = Ok (Instance root (UseSession 0%nat) None None)
      /\ root = "http://svc/".
Proof.
  split; [discriminate |].
  destruct (root_normalization Service "http://svc" (Some 0%nat) None None)
    as (root & H1 & _ & H3 & _ & _ & H6 & _); [discriminate |].
  exists root. split; [exact H1 |]. split; [exact H6 |].
  now apply H3.
Defined.

(** C6, as stated, fails at the empty root: it does not end with the
    separator, and the setter raises instead of appending one. *)
Lemma root_normalization_empty_root :
  ends_with "/" "" = false
  /\ HttpService.url_root "" = Raise IndexError
  /\ HttpClient.url_root "" = Raise IndexError
  /\ HttpService.url_root "" <> Ok ("" +:+ "/").
Proof. repeat split; discriminate. Qed.

Lemma bind_ok_inv {A B} (m : M A) (k : A -> M B) (w : world) (b : B) :
  ((m ≫= k) w).2 = Ok b ->
  exists a w', m w = (w', Ok a) /\ (k a w').2 = Ok b.
Proof.
  unfold mbind, M_bind. destruct (m w) as [w' [a | e |]]; simpl; try discriminate.
  intros H. now exists a, w'.
Qed.

Lemma init_empty (i : implementation) session a t :
  init_of i "" session a t = Raise IndexError.
Proof. now destruct i. Qed.

Lemma factory_needs_init (i : implementation) (cls : factory) kw (w : world) (c : instance) :
  (factory_of i cls kw w).2 = Ok c ->
  exists session a, init_of i (service_root cls) (Some session) a None = Ok c.
Proof.
  destruct i; simpl; unfold HttpServiceFactory.make_service, HttpClient.make_client;
    intros H;
    apply bind_ok_inv in H as (cached & w1 & _ & H);
    apply bind_ok_inv in H as (session & w2 & _ & H);
    apply bind_ok_inv in H as (a & w3 & _ & H);
    exists session, a; exact H.
Qed.

(** C10: in both implementations the constructor raises IndexError on the
    empty root; a factory whose root is the empty string never yields a
    client, and with no auth class configured (the default) its call ends in
    that IndexError. *)
Theorem empty_root_fails (i : implementation) (cls : factory)
        (session : option session_ref) (a : option auth_object)
        (t : option timeout_value) (kw : option (gmap string Py.value)) (w : world) :
  service_root cls = "" ->
  init_of i "" session a t = Raise IndexError
  /\ (forall c, (factory_of i cls kw w).2 <> Ok c)
  /\ (auth cls = None -> (factory_of i cls kw w).2 = Raise IndexError).
Proof.
  intros Hroot. split; [apply init_empty |]. split.
  - intros c H. apply factory_needs_init in H as (s & a' & H).
    rewrite Hroot, init_empty in H. discriminate.
  - intros Hauth.
    destruct i; simpl; unfold HttpServiceFactory.make_service, HttpClient.make_client;
      unfold mbind, M_bind, SessionCache.get, ClientSessionCache.get;
      rewrite Hroot, Hauth.
    + now destruct (services_cache w !! __name__ cls).
    + now destruct (clients_cache w !! __name__ cls).
Qed.

Lemma empty_root_fails_witness :
  service_root (HttpServiceFactory.defaults "HttpServiceFactory") = ""
  /\ HttpService.__init__ "" None None None = Raise IndexError
  /\ (HttpServiceFactory.make_service
        (HttpServiceFactory.defaults "HttpServiceFactory") None
        (initial_world (fun _ _ => Fails "unreachable"))).2 = Raise IndexError.
Proof.
  split; [reflexivity |].
  destruct (empty_root_fails Service (HttpServiceFactory.defaults "HttpServiceFactory")
              None None None None (initial_world (fun _ _ => Fails "unreachable")))
    as (H1 & _ & H3); [reflexivity |].
  split; [exact H1 | now apply H3].
Defined.

(** ** Path normalisation *)

Lemma last_char_nonempty (s : string) (c : ascii) :
  last_char s = Some c -> Py.nonempty s = true.
Proof. now destruct s. Qed.

Lemma last_char_cons (a : ascii) (s : string) : exists c, last_char (String a s) = Some c.
Proof.
  destruct (last_char (String a s)) as [c|] eqn:E; [now exists c |].
  now apply last_char_none in E.
Qed.

Lemma normalize_path_single (i : implementation) : normalize_of i "/" = Raise IndexError.
Proof. now destruct i. Qed.

(** Except on the path "/", the source normalises a path as the
    specification words it. *)
Lemma normalize_path_spec (i : implementation) (path : string) :
  path <> "/" -> normalize_of i path = Ok (spec_normalize_path path).
Proof.
  intros Hne. destruct path as [|a s]; [now destruct i |].
  assert (H : HttpService.normalize_path (String a s)
              = Ok (spec_normalize_path (String a s))).
  { unfold HttpService.normalize_path, spec_normalize_path.
    simpl Py.nonempty. cbv iota. rewrite item_first. simpl char_is.
    destruct (Ascii.eqb a "/") eqn:Ea.
    - rewrite slice_tail, item_last. unfold ends_with.
      destruct (last_char s) as [c|] eqn:El.
      + rewrite (last_char_nonempty s c El), find_eq_minus_1. simpl.
        now destruct (negb (Ascii.eqb c "/") && negb (contains "?" s)).
      + apply last_char_none in El. apply Ascii.eqb_eq in Ea. now subst.
    - rewrite item_last. unfold ends_with.
      destruct (last_char_cons a s) as [c El]. rewrite El, find_eq_minus_1.
      simpl Py.nonempty. simpl char_is.
      change (true && negb (Ascii.eqb c "/")) with (negb (Ascii.eqb c "/")).
      now destruct (negb (Ascii.eqb c "/") && negb (contains "?" (String a s))). }
  now destruct i.
Qed.

Lemma build_url_unfold (i : implementation) fuel self path params :
  build_url_of i fuel self path params
  = (p ← normalize_of i path;
     substitute_of i fuel params (_url_root self +:+ p)
                   (Py.find (_url_root self +:+ p) "{" 0)).
Proof. now destruct i. Qed.

Lemma build_url_single (i : implementation) fuel self params :
  build_url_of i fuel self "/" params = Raise IndexError.
Proof. now rewrite build_url_unfold, normalize_path_single. Qed.

(** C3: for a non-empty path other than "/", [_build_url] starts the
    substitution from the root followed by the path normalised as the
    specification says (one leading separator stripped; a separator appended
    exactly when the stripped path is non-empty, does not end with one and
    has no [?]).  At the path "/" the specification's normalised path is
    empty, so the URL would be the root, but the code raises IndexError. *)
Theorem path_normalization (i : implementation) (fuel : nat) (self : instance)
        (path : string) (params : gmap string Py.value) :
  path <> "" ->
  (path <> "/" ->
   normalize_of i path = Ok (spec_normalize_path path)
   /\ build_url_of i fuel self path params
      = substitute_of i fuel params (_url_root self +:+ spec_normalize_path path)
          (Py.find (_url_root self +:+ spec_normalize_path path) "{" 0))
  /\ (path = "/" ->
      spec_normalize_path path = ""
      /\ build_url_of i fuel self path params = Raise IndexError).
Proof.
  intros _. split.
  - intros Hne. split; [now apply normalize_path_spec |].
    now rewrite build_url_unfold, normalize_path_spec.
  - intros ->. split; [reflexivity | apply build_url_single].
Qed.

Lemma path_normalization_witness :
  "/search?q={q}" <> ""
  /\ spec_normalize_path "/search?q={q}" = "search?q={q}"
  /\ HttpService._build_url 2 svc "/search?q={q}" {[ "q" := Py.VStr "a" ]}
     = Ok "http://svc/search?q=a".
Proof.
  split; [discriminate |]. split; [reflexivity |].
  destruct (path_normalization Service 2 svc "/search?q={q}" {[ "q" := Py.VStr "a" ]})
    as [H _]; [discriminate |].
  destruct H as [_ H]; [discriminate |].
  simpl build_url_of in H. rewrite H. vm_compute. reflexivity.
Defined.

(** ** Dispatch *)

Lemma shortcut_eq (i : implementation) (v : verb) fuel self path pp qp data h re :
  shortcut i v fuel self path pp qp data h re
  = make_request_of i fuel self (verb_name v) path pp (verb_query v qp)
      (verb_data v data) h None re.
Proof. now destruct i, v. Qed.

(** A dispatcher call whose URL cannot be built ends there, with no call to
    the transport. *)
Lemma make_request_no_url (i : implementation) fuel self method path pp qp data h t re w :
  (forall url, url_for i fuel self path pp <> Ok url) ->
  make_request_of i fuel self method path pp qp data h t re w
  = (w, match url_for i fuel self path pp with
        | Raise e => Raise e
        | _ => OutOfFuel
        end).
Proof.
  intros Hno. unfold url_for in *.
  destruct i; simpl in *;
    unfold HttpService.make_request, HttpClient.make_request, mbind at 1, M_bind, lift;
    match goal with
    | |- context [splat ?d ≫= ?k] => destruct (splat d ≫= k) as [url | e |]
    end; try reflexivity; now destruct (Hno url).
Qed.

(** A dispatcher call of a client bound to a session, whose URL is built,
    issues one call and applies the raise-on-error rule to the answer. *)
Lemma make_request_url (i : implementation) fuel self method path pp qp data h t re w
      url (s : session_ref) :
  url_for i fuel self path pp = Ok url ->
  _requestor self = UseSession s ->
  make_request_of i fuel self method path pp qp data h t re w
  = let call := TransportCall method url qp data h
                  (if timeout_truthy t then t else _timeout self) (_auth self) in
    (log_call (_requestor self) call w,
     match transport w (log w) (_requestor self, call) with
     | Answers res =>
         if (status_code res >=? 300) && re
         then Raise (service_error i res) else Ok res
     | Fails what => Raise (TransportError what)
     end).
Proof.
  intros Hurl Hs. unfold url_for in *.
  destruct i; simpl in *;
    unfold HttpService.make_request, HttpClient.make_request, mbind at 1, M_bind, lift;
    rewrite Hurl; unfold mbind, M_bind, request; rewrite Hs;
    (destruct (transport w _ _) as [res | what]; [| reflexivity]);
    now destruct ((status_code res >=? 300) && re).
Qed.

(** A dispatcher call of a client built without a session, whose URL is
    built, raises AttributeError and issues nothing. *)
Lemma make_request_no_session (i : implementation) fuel self method path pp qp data h t re
      w url :
  url_for i fuel self path pp = Ok url ->
  _requestor self = UseRequestsFunction ->
  make_request_of i fuel self method path pp qp data h t re w
  = (w, Raise AttributeError).
Proof.
  intros Hurl Hs. unfold url_for in *.
  destruct i; simpl in *;
    unfold HttpService.make_request, HttpClient.make_request, mbind at 1, M_bind, lift;
    rewrite Hurl; unfold mbind, M_bind, request; now rewrite Hs.
Qed.

Lemma url_for_single (i : implementation) fuel self pp kwargs :
  splat (or_empty_dict pp) = Ok kwargs ->
  url_for i fuel self "/" pp = Raise IndexError.
Proof.
  intros H. unfold url_for. rewrite H. apply build_url_single.
Qed.

(** C9: for every client of either implementation, [_build_url] on the path
    "/" raises IndexError whatever the parameters, and so do the dispatcher
    and each of the five verb shortcuts (called with path parameters that can
    be passed as keywords), leaving the state as it was: no URL is returned
    and no transport call is issued. *)
Theorem single_separator_path_raises (i : implementation) (fuel : nat)
        (self : instance) (pp : option (gmap string Py.value))
        (kwargs : gmap string Py.value) :
  splat (or_empty_dict pp) = Ok kwargs ->
  (forall params, build_url_of i fuel self "/" params = Raise IndexError)
  /\ (forall method qp data h t re w,
        make_request_of i fuel self method "/" pp qp data h t re w
        = (w, Raise IndexError))
  /\ (forall v qp data h re w,
        shortcut i v fuel self "/" pp qp data h re w = (w, Raise IndexError)).
Proof.
  intros Hkw. pose proof (url_for_single i fuel self pp kwargs Hkw) as Hurl.
  assert (Hmk : forall method qp data h t re w,
             make_request_of i fuel self method "/" pp qp data h t re w
             = (w, Raise IndexError)).
  { intros. rewrite make_request_no_url; rewrite Hurl; [reflexivity | discriminate]. }
  split; [intros; apply build_url_single |].
  split; [exact Hmk |].
  intros. rewrite shortcut_eq. apply Hmk.
Qed.

Lemma single_separator_path_raises_witness :
  splat (or_empty_dict None) = Ok ∅
  /\ HttpService._build_url 3 svc "/" ∅ = Raise IndexError
  /\ (HttpService.get 3 svc "/" None None None true
        (initial_world (fun _ _ => Fails "unreachable"))).2 = Raise IndexError.
Proof.
  split; [reflexivity |].
  destruct (single_separator_path_raises Service 3 svc None ∅) as (H1 & _ & H3);
    [reflexivity |].
  split; [apply H1 |].
  specialize (H3 GET None None None true (initial_world (fun _ _ => Fails "unreachable"))).
  simpl shortcut in H3. now rewrite H3.
Defined.

(** C2: for a client bound to a session, when the URL is built and the
    transport answers the call with a response, the dispatcher raises the
    service error carrying that very response exactly when the status is at
    least 300 and raising is enabled; otherwise it returns the response as
    the transport gave it.  (A client built without a session gets no
    response at all: see [make_request_no_session].) *)
Theorem raise_on_error_rule (i : implementation) (fuel : nat) (self : instance)
        (method path : string) (pp : option (gmap string Py.value))
        (qp : option (gmap string string)) (data : option string)
        (h : option (gmap string string)) (t : option timeout_value)
        (re : bool) (w : world) (url : string) (s : session_ref)
        (res : response) :
  url_for i fuel self path pp = Ok url ->
  _requestor self = UseSession s ->
  transport w (log w)
    (_requestor self,
     TransportCall method url qp data h
       (if timeout_truthy t then t else _timeout self) (_auth self))
  = Answers res ->
  ((make_request_of i fuel self method path pp qp data h t re w).2
   = Raise (service_error i res)
   <-> 300 <= status_code res /\ re = true)
  /\ (~ (300 <= status_code res /\ re = true) ->
      (make_request_of i fuel self method path pp qp data h t re w).2 = Ok res)
  /\ (forall r,
        (make_request_of i fuel self method path pp qp data h t re w).2
        = Raise (service_error i r) -> r = res).
Proof.
  intros Hurl Hsession Hres.
  rewrite (make_request_url _ _ _ _ _ _ _ _ _ _ _ _ _ _ Hurl Hsession).
  cbv zeta. simpl snd. rewrite Hres.
  destruct (Z.geb_spec (status_code res) 300) as [Hs | Hs]; destruct re; simpl;
    (split; [split |]).
  all: try (intros []; discriminate || lia).
  all: try (intros _; split; [lia | reflexivity]).
  all: try discriminate.
  all: split; try (intros r; destruct i; simpl; congruence).
  all: try reflexivity.
  all: intros Hn; exfalso; apply Hn; split; [lia | reflexivity].
Qed.

Lemma raise_on_error_rule_witness :
  url_for Service 2 svc "/x/{id}/" (Some {[ "id" := Py.VStr "7" ]}) = Ok "http://svc/x/7/"
  /\ _requestor svc = UseSession 0%nat
  /\ (HttpService.make_request 2 svc "GET" "/x/{id}/" (Some {[ "id" := Py.VStr "7" ]})
        None None None None true (initial_world (fun _ _ => Answers not_found))).2
     = Raise (ServiceException not_found)
  /\ (HttpService.make_request 2 svc "GET" "/x/{id}/" (Some {[ "id" := Py.VStr "7" ]})
        None None None None false (initial_world (fun _ _ => Answers not_found))).2
     = Ok not_found.
Proof.
  split; [vm_compute; reflexivity |]. split; [reflexivity |]. split.
  - destruct (raise_on_error_rule Service 2 svc "GET" "/x/{id}/"
                (Some {[ "id" := Py.VStr "7" ]}) None None None None true
                (initial_world (fun _ _ => Answers not_found))
                "http://svc/x/7/" 0%nat not_found) as (H & _ & _);
      [vm_compute; reflexivity | reflexivity | reflexivity |].
    apply H. split; [simpl; lia | reflexivity].
  - destruct (raise_on_error_rule Service 2 svc "GET" "/x/{id}/"
                (Some {[ "id" := Py.VStr "7" ]}) None None None None false
                (initial_world (fun _ _ => Answers not_found))
                "http://svc/x/7/" 0%nat not_found) as (_ & H & _);
      [vm_compute; reflexivity | reflexivity | reflexivity |].
    apply H. intros [_ ?]. discriminate.
Defined.

Lemma issued_by_make_request (i : implementation) fuel self method path pp qp data h t re w
      url (s : session_ref) :
  url_for i fuel self path pp = Ok url ->
  _requestor self = UseSession s ->
  issued_by (make_request_of i fuel self method path pp qp data h t re) w
  = [(_requestor self,
      TransportCall method url qp data h
        (if timeout_truthy t then t else _timeout self) (_auth self))].
Proof.
  intros Hurl Hs. unfold issued_by.
  rewrite (make_request_url _ _ _ _ _ _ _ _ _ _ _ _ _ _ Hurl Hs). cbv zeta. simpl.
  apply drop_app_length.
Qed.

Lemma issued_by_no_url (i : implementation) fuel self method path pp qp data h t re w :
  (forall url, url_for i fuel self path pp <> Ok url) ->
  issued_by (make_request_of i fuel self method path pp qp data h t re) w = [].
Proof.
  intros Hno. unfold issued_by. rewrite make_request_no_url by exact Hno. simpl.
  apply drop_all.
Qed.

(** C8, as amended: for a client bound to a session, the dispatcher takes a
    per-call timeout, and the timeout of the transport call it issues is that
    override when one is given and is not zero, else the client's default; a
    verb shortcut takes no timeout and the call it issues carries the
    client's default. *)
Theorem timeout_resolution (i : implementation) (v : verb) (fuel : nat)
        (self : instance) (method path : string)
        (pp : option (gmap string Py.value)) (qp : option (gmap string string))
        (data : option string) (h : option (gmap string string))
        (t : option timeout_value) (re : bool) (w : world) (url : string)
        (s : session_ref) :
  url_for i fuel self path pp = Ok url ->
  _requestor self = UseSession s ->
  issued_by (make_request_of i fuel self method path pp qp data h t re) w
  = [(_requestor self,
      TransportCall method url qp data h
        (if timeout_truthy t then t else _timeout self) (_auth self))]
  /\ issued_by (shortcut i v fuel self path pp qp data h re) w
     = [(_requestor self,
         TransportCall (verb_name v) url (verb_query v qp) (verb_data v data) h
           (_timeout self) (_auth self))].
Proof.
  intros Hurl Hsession. split; [now apply (issued_by_make_request _ _ _ _ _ _ _ _ _ _ _ _ _ s) |].
  rewrite shortcut_eq.
  now rewrite (issued_by_make_request _ _ _ _ _ _ _ _ _ _ _ _ url s).
Qed.

Lemma timeout_resolution_witness :
  url_for Service 1 svc3 "/x" None = Ok "http://svc/x/"
  /\ _requestor svc3 = UseSession 0%nat
  /\ issued_by (HttpService.make_request 1 svc3 "GET" "/x" None None None None
                  (Some (TNumber 5)) true)
       (initial_world (fun _ _ => Answers not_found))
     = [(UseSession 0%nat,
         TransportCall "GET" "http://svc/x/" None None None (Some (TNumber 5)) None)]
  /\ issued_by (HttpService.get 1 svc3 "/x" None None None true)
       (initial_world (fun _ _ => Answers not_found))
     = [(UseSession 0%nat,
         TransportCall "GET" "http://svc/x/" None None None (Some (TNumber 3)) None)].
Proof.
  split; [vm_compute; reflexivity |]. split; [reflexivity |].
  exact (timeout_resolution Service GET 1 svc3 "GET" "/x" None None None None
           (Some (TNumber 5)) true (initial_world (fun _ _ => Answers not_found))
           "http://svc/x/" 0%nat ltac:(vm_compute; reflexivity) eq_refl).
Defined.

(** C8, as stated, fails in two ways.  A verb shortcut has no timeout
    parameter: on a client whose default is three seconds, [get] issues its
    call with that default, and no choice of arguments makes any shortcut
    issue a call with a five-second timeout.  And the dispatcher tests the
    override by its truth value: given the override zero, it issues the call
    with the default of three seconds, not with the override. *)
Lemma shortcut_timeout_counterexample :
  issued_by (HttpService.get 1 svc3 "/x" None None None true)
    (initial_world (fun _ _ => Answers not_found))
  = [(UseSession 0%nat,
      TransportCall "GET" "http://svc/x/" None None None (Some (TNumber 3)) None)]
  /\ (forall i v fuel path pp qp data h re w c,
        c ∈ issued_by (shortcut i v fuel svc3 path pp qp data h re) w ->
        tc_timeout c.2 <> Some (TNumber 5))
  /\ issued_by (HttpService.make_request 1 svc3 "GET" "/x" None None None None
                  (Some (TNumber 0)) true)
       (initial_world (fun _ _ => Answers not_found))
     = [(UseSession 0%nat,
         TransportCall "GET" "http://svc/x/" None None None (Some (TNumber 3)) None)]
  /\ issued_by (HttpClient.make_request 1 svc3 "GET" "/x" None None None None
                  (Some (TNumber 0)) true)
       (initial_world (fun _ _ => Answers not_found))
     = [(UseSession 0%nat,
         TransportCall "GET" "http://svc/x/" None None None (Some (TNumber 3)) None)].
Proof.
  split; [vm_compute; reflexivity |].
  split; [| split; vm_compute; reflexivity].
  intros i v fuel path pp qp data h re w c Hc.
  rewrite shortcut_eq in Hc.
  destruct (url_for i fuel svc3 path pp) as [url | e |] eqn:Hurl.
  - rewrite (issued_by_make_request _ _ _ _ _ _ _ _ _ _ _ _ url 0%nat Hurl eq_refl) in Hc.
    apply list_elem_of_singleton in Hc. subst c. discriminate.
  - rewrite issued_by_no_url in Hc by (rewrite Hurl; discriminate).
    now apply elem_of_nil in Hc.
  - rewrite issued_by_no_url in Hc by (rewrite Hurl; discriminate).
    now apply elem_of_nil in Hc.
Qed.

(** ** The two implementations *)

Lemma url_for_agree fuel self path pp :
  url_for Client fuel self path pp = url_for Service fuel self path pp.
Proof. reflexivity. Qed.

(** The substitution loop raises nothing: it returns or it goes on. *)
Lemma substitute_no_raise (i : implementation) fuel params url start e :
  substitute_of i fuel params url start <> Raise e.
Proof.
  assert (H : HttpService.substitute fuel params url start <> Raise e).
  { revert url start. induction fuel as [| fuel IH]; intros url start; simpl;
      destruct (start >=? 0); try discriminate. apply IH. }
  now destruct i.
Qed.

Lemma normalize_raises (i : implementation) path e :
  normalize_of i path = Raise e -> e = IndexError.
Proof.
  destruct (decide (path = "/")) as [-> | Hne].
  - rewrite normalize_path_single. congruence.
  - rewrite normalize_path_spec by exact Hne. discriminate.
Qed.

Lemma url_for_raises (i : implementation) fuel self path pp e :
  url_for i fuel self path pp = Raise e -> e = IndexError \/ e = TypeError.
Proof.
  unfold url_for, splat. case_bool_decide; simpl; [intros [= <-]; now right |].
  rewrite build_url_unfold.
  destruct (normalize_of i path) as [p | e' |] eqn:Hn; simpl.
  - intros Hs. now apply substitute_no_raise in Hs.
  - intros [= <-]. left. now apply normalize_raises in Hn.
  - discriminate.
Qed.

(** C4: on every input the two implementations build the same URL, and
    their dispatchers leave the same state, issue the same transport calls
    and end the same way, except that where [HttpService] raises
    [ServiceException] on a response, [HttpClient] raises
    [HttpClientException] on it. *)
Theorem implementations_agree (fuel : nat) (self : instance) (method path : string)
        (params : gmap string Py.value) (pp : option (gmap string Py.value))
        (qp : option (gmap string string)) (data : option string)
        (h : option (gmap string string)) (t : option timeout_value)
        (re : bool) (w : world) :
  HttpClient._build_url fuel self path params
  = HttpService._build_url fuel self path params
  /\ (HttpClient.make_request fuel self method path pp qp data h t re w).1
     = (HttpService.make_request fuel self method path pp qp data h t re w).1
  /\ issued_by (HttpClient.make_request fuel self method path pp qp data h t re) w
     = issued_by (HttpService.make_request fuel self method path pp qp data h t re) w
  /\ (HttpClient.make_request fuel self method path pp qp data h t re w).2
     = rename_error
         (HttpService.make_request fuel self method path pp qp data h t re w).2.
Proof.
  split; [reflexivity |].
  change HttpClient.make_request with (make_request_of Client).
  change HttpService.make_request with (make_request_of Service).
  unfold issued_by.
  destruct (url_for Service fuel self path pp) as [url | e |] eqn:Hurl.
  - destruct (_requestor self) as [s |] eqn:Hsession.
    + rewrite (make_request_url Service _ _ _ _ _ _ _ _ _ _ _ _ s Hurl Hsession).
      rewrite (make_request_url Client _ _ _ _ _ _ _ _ _ _ _ _ s Hurl Hsession).
      cbv zeta. simpl. repeat split.
      destruct (transport w _ _) as [res | what]; [| reflexivity].
      now destruct ((status_code res >=? 300) && re).
    + rewrite (make_request_no_session Service _ _ _ _ _ _ _ _ _ _ _ _ Hurl Hsession).
      rewrite (make_request_no_session Client _ _ _ _ _ _ _ _ _ _ _ _ Hurl Hsession).
      now simpl.
  - rewrite (make_request_no_url Service) by (rewrite Hurl; discriminate).
    rewrite (make_request_no_url Client)
      by (rewrite url_for_agree, Hurl; discriminate).
    rewrite url_for_agree, Hurl. simpl. repeat split.
    apply url_for_raises in Hurl as [-> | ->]; reflexivity.
  - rewrite (make_request_no_url Service) by (rewrite Hurl; discriminate).
    rewrite (make_request_no_url Client)
      by (rewrite url_for_agree, Hurl; discriminate).
    rewrite url_for_agree, Hurl. now simpl.
Qed.

(** ** Substitution of an absent parameter *)

(** A result reached within some bound is reached within every larger one. *)
Lemma substitute_fuel_mono (i : implementation) fuel fuel' params url start r :
  (fuel <= fuel')%nat ->
  substitute_of i fuel params url start = Ok r ->
  substitute_of i fuel' params url start = Ok r.
Proof.
  assert (H : forall fuel fuel' url start,
             (fuel <= fuel')%nat ->
             HttpService.substitute fuel params url start = Ok r ->
             HttpService.substitute fuel' params url start = Ok r).
  { clear. induction fuel as [| fuel IH]; intros fuel' url start Hle.
    - simpl. destruct (start >=? 0) eqn:Hs; [discriminate |].
      intros H. destruct fuel'; simpl; now rewrite Hs.
    - destruct fuel' as [| fuel']; [lia |]. simpl.
      destruct (start >=? 0); [| trivial]. apply IH. lia. }
  destruct i; apply H.
Qed.

Lemma build_url_fuel_mono (i : implementation) fuel fuel' self path params r :
  (fuel <= fuel')%nat ->
  build_url_of i fuel self path params = Ok r ->
  build_url_of i fuel' self path params = Ok r.
Proof.
  intros Hle. rewrite !build_url_unfold.
  destruct (normalize_of i path) as [p | e |]; simpl; try discriminate.
  now apply substitute_fuel_mono.
Qed.

Lemma str_get_absent (params : gmap string Py.value) (name : string) :
  params !! name = None \/ params !! name = Some Py.VNone ->
  Py.str (Py.get params name) = "None".
Proof. unfold Py.get. now intros [-> | ->]. Qed.

(** C1: with root "http://svc/" and template "/x/{id}/", the placeholder of
    a name that is absent from the mapping, or mapped to None, is replaced by
    the text "None": the result is "http://svc/x/None/", not "http://svc/x//". *)
Theorem absent_parameter_gives_None (i : implementation) (fuel : nat) :
  build_url_of i (S fuel) svc "/x/{id}/" ∅ = Ok "http://svc/x/None/"
  /\ build_url_of i (S fuel) svc "/x/{id}/" {[ "id" := Py.VNone ]}
     = Ok "http://svc/x/None/"
  /\ build_url_of i (S fuel) svc "/x/{id}/" ∅ <> Ok "http://svc/x//".
Proof.
  assert (H1 : build_url_of i (S fuel) svc "/x/{id}/" ∅ = Ok "http://svc/x/None/").
  { apply (build_url_fuel_mono i 1); [lia |]. destruct i; vm_compute; reflexivity. }
  split; [exact H1 |]. split.
  - apply (build_url_fuel_mono i 1); [lia |]. destruct i; vm_compute; reflexivity.
  - rewrite H1. discriminate.
Qed.

(** ** Termination of the substitution loop *)

Section MoreStringFacts.

Implicit Types (s p q old new : string) (c a : ascii).

Lemma drop_append p s : Py.drop (String.length p) (p +:+ s) = s.
Proof. induction p as [| a p IH]; [reflexivity | exact IH]. Qed.

Lemma take_append p s : Py.take (String.length p) (p +:+ s) = p.
Proof.
  induction p as [| a p IH]; [now destruct s |].
  rewrite append_cons. simpl. now rewrite IH.
Qed.

Lemma contains_split c s :
  contains c s = true ->
  exists p q, s = p +:+ String c q /\ contains c p = false.
Proof.
  induction s as [| a s IH]; simpl; [discriminate |].
  destruct (Ascii.eqb a c) eqn:Ea; simpl.
  - intros _. apply Ascii.eqb_eq in Ea. subst a. now exists "", s.
  - intros H. destruct (IH H) as (p & q & -> & Hp).
    exists (String a p), q. rewrite append_cons. simpl. now rewrite Ea.
Qed.

Lemma contains_append c p q : contains c (p +:+ q) = contains c p || contains c q.
Proof.
  induction p as [| a p IH]; [reflexivity |]. rewrite append_cons. simpl.
  rewrite IH. now rewrite orb_assoc.
Qed.

Lemma find_at_append c p q pos :
  contains c p = false ->
  Py.find_at c (p +:+ String c q) pos = pos + Z.of_nat (String.length p).
Proof.
  revert pos. induction p as [| a p IH]; intros pos.
  - intros _. simpl. rewrite Ascii.eqb_refl. lia.
  - rewrite append_cons. simpl. destruct (Ascii.eqb a c); simpl; [discriminate |].
    intros H. rewrite IH by exact H. lia.
Qed.

(** [s.find(c, k)] for an index [k] inside [s]. *)
Lemma find_from_nat s c (k : nat) :
  (k <= String.length s)%nat ->
  Py.find s c (Z.of_nat k) = Py.find_at c (Py.drop k s) (Z.of_nat k).
Proof.
  intros Hk. unfold Py.find, Py.clip, Py.len.
  replace (Z.of_nat k <? 0) with false by (symmetry; apply Z.ltb_ge; lia).
  replace (Z.min (Z.of_nat k) (Z.of_nat (String.length s))) with (Z.of_nat k) by lia.
  now rewrite Nat2Z.id.
Qed.

(** [s[i:j]] for indices [i <= j] inside [s]. *)
Lemma slice_nat s (i j : nat) :
  (j <= String.length s)%nat -> (i <= j)%nat ->
  Py.slice s (Some (Z.of_nat i)) (Some (Z.of_nat j)) = Py.take (j - i) (Py.drop i s).
Proof.
  intros Hj Hi. unfold Py.slice, Py.clip, Py.len.
  replace (Z.of_nat i <? 0) with false by (symmetry; apply Z.ltb_ge; lia).
  replace (Z.of_nat j <? 0) with false by (symmetry; apply Z.ltb_ge; lia).
  replace (Z.min (Z.of_nat i) (Z.of_nat (String.length s))) with (Z.of_nat i) by lia.
  replace (Z.min (Z.of_nat j) (Z.of_nat (String.length s))) with (Z.of_nat j) by lia.
  now rewrite !Nat2Z.id.
Qed.

Lemma prefix_append old q : String.prefix old (old +:+ q) = true.
Proof.
  induction old as [| a old IH]; [now destruct q |].
  rewrite append_cons. simpl. destruct (ascii_dec a a); [exact IH | congruence].
Qed.

Lemma prefix_split old s :
  String.prefix old s = true -> exists q, s = old +:+ q.
Proof.
  revert s. induction old as [| a old IH]; intros s.
  - intros _. now exists s.
  - destruct s as [| b s]; simpl; [discriminate |].
    destruct (ascii_dec a b) as [<- |]; [| discriminate].
    intros H. destruct (IH s H) as [q ->]. now exists q.
Qed.

Lemma prefix_head a old b s :
  a <> b -> String.prefix (String a old) (String b s) = false.
Proof. intros Hab. simpl. now destruct (ascii_dec a b). Qed.

(** Passing over [k] characters is dropping them. *)
Lemma replace_from_skip old new (k : nat) s :
  Py.replace_from old new k s = Py.replace_from old new O (Py.drop k s).
Proof.
  revert k. induction s as [| a s IH]; intros k; [now destruct k |].
  destruct k as [| k]; [reflexivity |]. simpl Py.drop.
  change (Py.replace_from old new (S k) (String a s)) with (Py.replace_from old new k s).
  apply IH.
Qed.

(** The three equations of [replace] for a non-empty [old]. *)
Lemma replace_match a old new q :
  Py.replace (String a old +:+ q) (String a old) new
  = new +:+ Py.replace q (String a old) new.
Proof.
  unfold Py.replace. rewrite append_cons.
  change (Py.replace_from (String a old) new O (String a (old +:+ q)))
    with (if String.prefix (String a old) (String a (old +:+ q))
          then new +:+ Py.replace_from (String a old) new
                         (String.length (String a old) - 1) (old +:+ q)
          else String a (Py.replace_from (String a old) new O (old +:+ q))).
  rewrite <- append_cons, prefix_append, replace_from_skip.
  simpl String.length. replace (S (String.length old) - 1)%nat with (String.length old) by lia.
  now rewrite drop_append.
Qed.

Lemma replace_no_match a old new b s :
  String.prefix (String a old) (String b s) = false ->
  Py.replace (String b s) (String a old) new
  = String b (Py.replace s (String a old) new).
Proof.
  intros H. unfold Py.replace.
  change (Py.replace_from (String a old) new O (String b s))
    with (if String.prefix (String a old) (String b s)
          then new +:+ Py.replace_from (String a old) new
                         (String.length (String a old) - 1) s
          else String b (Py.replace_from (String a old) new O s)).
  now rewrite H.
Qed.

(** Before the first character of [old], nothing is replaced. *)
Lemma replace_after_prefix a old new p q :
  contains a p = false ->
  Py.replace (p +:+ q) (String a old) new = p +:+ Py.replace q (String a old) new.
Proof.
  induction p as [| b p IH]; [reflexivity |]. intros Hp. simpl in Hp.
  destruct (Ascii.eqb b a) eqn:Eb; simpl in Hp; [discriminate |].
  rewrite !append_cons, replace_no_match, IH; [reflexivity | exact Hp |].
  apply prefix_head. intros ->. now rewrite Ascii.eqb_refl in Eb.
Qed.

End MoreStringFacts.

Section BraceFacts.

Implicit Types (s p q old new : string) (c a : ascii) (d : nat).

Lemma open_braces_append d p q :
  open_braces d (p +:+ q) = open_braces (open_braces d p) q.
Proof.
  revert d. induction p as [| a p IH]; intros d; [reflexivity |].
  rewrite append_cons. simpl.
  destruct (Ascii.eqb a "{"); [apply IH |]. destruct (Ascii.eqb a "}"); apply IH.
Qed.

Lemma open_braces_mono d d' s :
  (d <= d')%nat -> (open_braces d s <= open_braces d' s)%nat.
Proof.
  revert d d'. induction s as [| a s IH]; intros d d' Hd; simpl; [exact Hd |].
  destruct (Ascii.eqb a "{"); [apply IH; lia |].
  destruct (Ascii.eqb a "}"); apply IH; lia.
Qed.

Lemma open_braces_no_open d s :
  contains "{" s = false -> (open_braces d s <= d)%nat.
Proof.
  revert d. induction s as [| a s IH]; intros d; simpl; [lia |].
  destruct (Ascii.eqb a "{"); simpl; [discriminate |]. intros H.
  destruct (Ascii.eqb a "}"); [| now apply IH].
  specialize (IH (Nat.pred d) H). lia.
Qed.

Lemma open_braces_no_close d s :
  contains "}" s = false -> (d <= open_braces d s)%nat.
Proof.
  revert d. induction s as [| a s IH]; intros d; simpl; [lia |].
  destruct (Ascii.eqb a "}"); simpl; [discriminate |]. intros H.
  destruct (Ascii.eqb a "{"); [| now apply IH].
  specialize (IH (S d) H). lia.
Qed.

(** A placeholder leaves at least as many braces open as there were. *)
Lemma open_braces_placeholder d p :
  contains "}" p = false ->
  (d <= open_braces d (String "{" (p +:+ "}")))%nat.
Proof.
  intros Hp. change (open_braces d (String "{" (p +:+ "}")))
    with (open_braces (S d) (p +:+ "}")).
  rewrite open_braces_append.
  pose proof (open_braces_no_close (S d) p Hp).
  change (open_braces (open_braces (S d) p) "}") with (Nat.pred (open_braces (S d) p)).
  lia.
Qed.

Lemma count_char_append c p q :
  count_char c (p +:+ q) = (count_char c p + count_char c q)%nat.
Proof.
  induction p as [| a p IH]; [reflexivity |]. rewrite append_cons. simpl.
  rewrite IH. lia.
Qed.

Lemma count_char_zero c s : contains c s = false <-> count_char c s = O.
Proof.
  induction s as [| a s IH]; simpl; [tauto |].
  destruct (Ascii.eqb a c); simpl; [split; [discriminate | lia] | exact IH].
Qed.

Lemma replace_cases a old new s :
  s = ""
  \/ (exists q, s = String a old +:+ q
                /\ Py.replace s (String a old) new
                   = new +:+ Py.replace q (String a old) new)
  \/ (exists b s', s = String b s'
                   /\ Py.replace s (String a old) new
                      = String b (Py.replace s' (String a old) new)).
Proof.
  destruct s as [| b s']; [now left |]. right.
  destruct (String.prefix (String a old) (String b s')) eqn:Hp.
  - left. apply prefix_split in Hp as [q Hq]. exists q. split; [exact Hq |].
    rewrite Hq. apply replace_match.
  - right. exists b, s'. split; [reflexivity |]. now apply replace_no_match.
Qed.

Section Replace.

Variables (a : ascii) (old new : string).

Hypothesis new_closes : forall d, (open_braces d new <= d)%nat.
Hypothesis old_opens : forall d, (d <= open_braces d (String a old))%nat.

(** Replacing [old] by [new] leaves no more braces open. *)
Lemma replace_open_braces (n : nat) :
  forall s d, (String.length s <= n)%nat ->
    (open_braces d (Py.replace s (String a old) new) <= open_braces d s)%nat.
Proof.
  induction n as [| n IH]; intros s d Hlen.
  - destruct s; [simpl; lia | simpl in Hlen; lia].
  - destruct (replace_cases a old new s) as [-> | [(q & -> & ->) | (b & s' & -> & ->)]].
    + simpl. lia.
    + rewrite !open_braces_append.
      rewrite length_append in Hlen. simpl in Hlen.
      etransitivity; [apply IH; lia |].
      apply open_braces_mono. etransitivity; [apply new_closes | apply old_opens].
    + simpl in Hlen. simpl.
      destruct (Ascii.eqb b "{"); [apply IH; lia |].
      destruct (Ascii.eqb b "}"); apply IH; lia.
Qed.

Hypothesis new_count : count_char "{" new = O.

Lemma replace_count (n : nat) :
  forall s, (String.length s <= n)%nat ->
    (count_char "{" (Py.replace s (String a old) new) <= count_char "{" s)%nat.
Proof.
  induction n as [| n IH]; intros s Hlen.
  - destruct s; [simpl; lia | simpl in Hlen; lia].
  - destruct (replace_cases a old new s) as [-> | [(q & -> & ->) | (b & s' & -> & ->)]].
    + simpl. lia.
    + rewrite !count_char_append, new_count.
      rewrite length_append in Hlen. simpl in Hlen.
      specialize (IH q ltac:(lia)). lia.
    + simpl in Hlen. specialize (IH s' ltac:(lia)).
      change (count_char "{" (String b (Py.replace s' (String a old) new)))
        with ((if Ascii.eqb b "{" then 1 else 0)
              + count_char "{" (Py.replace s' (String a old) new))%nat.
      change (count_char "{" (String b s'))
        with ((if Ascii.eqb b "{" then 1 else 0) + count_char "{" s')%nat.
      lia.
Qed.

End Replace.

End BraceFacts.

(** The first placeholder of a URL whose braces are matched, as the loop
    finds it: the text from the first opening brace to the first closing
    brace after it. *)
Lemma first_placeholder (url : string) :
  contains "{" url = true -> braces_matched url ->
  exists pre mid post,
    url = pre +:+ String "{" (mid +:+ "}") +:+ post
    /\ contains "{" pre = false
    /\ contains "}" mid = false
    /\ Py.find url "{" 0 = Z.of_nat (String.length pre)
    /\ Py.slice url (Some (Py.find url "{" 0))
         (Some (Py.find url "}" (Py.find url "{" 0) + 1))
       = String "{" (mid +:+ "}").
Proof.
  intros Hopen Hm.
  destruct (contains_split "{" url Hopen) as (pre & rest & -> & Hpre).
  assert (Hrest : contains "}" rest = true).
  { destruct (contains "}" rest) eqn:E; [reflexivity | exfalso].
    unfold braces_matched in Hm. rewrite open_braces_append in Hm.
    pose proof (open_braces_no_open 0 pre Hpre) as H0.
    replace (open_braces 0 pre) with O in Hm by lia.
    change (open_braces 0 (String "{" rest)) with (open_braces 1 rest) in Hm.
    pose proof (open_braces_no_close 1 rest E). lia. }
  destruct (contains_split "}" rest Hrest) as (mid & post & -> & Hmid).
  exists pre, mid, post.
  assert (Hshape : String "{" (mid +:+ String "}" post)
                   = String "{" (mid +:+ "}") +:+ post).
  { rewrite append_cons, append_assoc. reflexivity. }
  assert (Hfind : Py.find (pre +:+ String "{" (mid +:+ String "}" post)) "{" 0
                  = Z.of_nat (String.length pre)).
  { rewrite find_from_0, find_at_append by exact Hpre. lia. }
  split; [now rewrite Hshape |]. split; [exact Hpre |]. split; [exact Hmid |].
  split; [exact Hfind |].
  rewrite Hfind, find_from_nat by (rewrite length_append; lia).
  rewrite drop_append.
  change (Py.find_at "}" (String "{" (mid +:+ String "}" post))
            (Z.of_nat (String.length pre)))
    with (Py.find_at "}" (mid +:+ String "}" post) (Z.of_nat (String.length pre) + 1)).
  rewrite find_at_append by exact Hmid.
  replace (Z.of_nat (String.length pre) + 1 + Z.of_nat (String.length mid) + 1)
    with (Z.of_nat (String.length pre + (String.length mid + 2))) by lia.
  rewrite slice_nat.
  - rewrite drop_append, Hshape.
    replace (String.length pre + (String.length mid + 2) - String.length pre)%nat
      with (String.length (String "{" (mid +:+ "}"))).
    + apply take_append.
    + simpl. rewrite length_append. simpl. lia.
  - rewrite length_append. simpl. rewrite length_append. simpl. lia.
  - lia.
Qed.

Lemma substitute_S fuel params url start :
  0 <= start ->
  HttpService.substitute (S fuel) params url start
  = HttpService.substitute fuel params
      (Py.replace url
         (Py.slice url (Some start) (Some (Py.find url "}" start + 1)))
         (if Py.nonempty
               (Py.str (Py.get params
                  (Py.slice (Py.slice url (Some start) (Some (Py.find url "}" start + 1)))
                            (Some 1) (Some (-1)))))
          then Py.str (Py.get params
                  (Py.slice (Py.slice url (Some start) (Some (Py.find url "}" start + 1)))
                            (Some 1) (Some (-1))))
          else ""))
      (Py.find
         (Py.replace url
            (Py.slice url (Some start) (Some (Py.find url "}" start + 1)))
            (if Py.nonempty
                  (Py.str (Py.get params
                     (Py.slice (Py.slice url (Some start) (Some (Py.find url "}" start + 1)))
                               (Some 1) (Some (-1)))))
             then Py.str (Py.get params
                     (Py.slice (Py.slice url (Some start) (Some (Py.find url "}" start + 1)))
                               (Some 1) (Some (-1))))
             else ""))
         "{" 0).
Proof.
  intros Hs. simpl. destruct (start >=? 0) eqn:E; [reflexivity | lia].
Qed.

Lemma nonempty_or_empty (s : string) : (if Py.nonempty s then s else "") = s.
Proof. now destruct s. Qed.

Lemma brace_free_get (params : gmap string Py.value) (name : string) :
  brace_free_values params -> contains "{" (Py.str (Py.get params name)) = false.
Proof.
  intros Hc. unfold Py.get. destruct (params !! name) as [v |] eqn:E; simpl.
  - now apply (Hc name).
  - reflexivity.
Qed.

(** One turn of the loop on a URL with matched braces: the braces stay
    matched and there are fewer opening braces. *)
Lemma substitute_turn fuel params url :
  brace_free_values params -> braces_matched url -> contains "{" url = true ->
  exists url',
    HttpService.substitute (S fuel) params url (Py.find url "{" 0)
    = HttpService.substitute fuel params url' (Py.find url' "{" 0)
    /\ braces_matched url'
    /\ (count_char "{" url' < count_char "{" url)%nat.
Proof.
  intros Hc Hm Hopen.
  destruct (first_placeholder url Hopen Hm) as (pre & mid & post & Hurl & Hpre & Hmid & Hfind & Hslice).
  rewrite substitute_S by (rewrite Hfind; lia).
  rewrite Hslice, nonempty_or_empty.
  set (name := Py.slice (String "{" (mid +:+ "}")) (Some 1) (Some (-1))).
  set (new := Py.str (Py.get params name)).
  assert (Hnew : contains "{" new = false) by apply brace_free_get, Hc.
  exists (Py.replace url (String "{" (mid +:+ "}")) new).
  split; [reflexivity |]. split.
  - unfold braces_matched in *.
    pose proof (replace_open_braces "{" (mid +:+ "}") new
                  (fun d => open_braces_no_open d new Hnew)
                  (fun d => open_braces_placeholder d mid Hmid)
                  (String.length url) url 0 (le_n _)).
    lia.
  - rewrite Hurl at 1. rewrite replace_after_prefix by exact Hpre.
    rewrite replace_match, !count_char_append.
    apply count_char_zero in Hnew. rewrite Hnew.
    pose proof (replace_count "{" (mid +:+ "}") new Hnew (String.length post) post (le_n _)).
    rewrite Hurl, !count_char_append.
    change (count_char "{" (String "{" (mid +:+ "}")))
      with (S (count_char "{" (mid +:+ "}"))).
    lia.
Qed.

(** On a URL with matched braces the loop ends within as many turns as
    there are opening braces, and leaves none. *)
Lemma substitute_terminates (i : implementation) params :
  brace_free_values params ->
  forall fuel url,
    (count_char "{" url <= fuel)%nat -> braces_matched url ->
    exists r,
      substitute_of i fuel params url (Py.find url "{" 0) = Ok r
      /\ contains "{" r = false.
Proof.
  intros Hc.
  assert (H : forall fuel url,
             (count_char "{" url <= fuel)%nat -> braces_matched url ->
             exists r,
               HttpService.substitute fuel params url (Py.find url "{" 0) = Ok r
               /\ contains "{" r = false).
  { induction fuel as [| fuel IH]; intros url Hn Hm.
    - assert (Hno : contains "{" url = false) by (apply count_char_zero; lia).
      exists url. split; [| exact Hno].
      rewrite find_from_0, find_at_absent by exact Hno. reflexivity.
    - destruct (contains "{" url) eqn:Hopen.
      + destruct (substitute_turn fuel params url Hc Hm Hopen) as (url' & -> & Hm' & Hlt).
        apply IH; [lia | exact Hm'].
      + exists url. split; [| exact Hopen].
        rewrite find_from_0, find_at_absent by exact Hopen. reflexivity. }
  now destruct i.
Qed.

Lemma open_braces_normalize (d : nat) (path : string) :
  open_braces d (spec_normalize_path path) = open_braces d path.
Proof.
  unfold spec_normalize_path. destruct path as [| a s]; [reflexivity |].
  destruct (Ascii.eqb a "/") eqn:Ea.
  - apply Ascii.eqb_eq in Ea. subst a.
    change (open_braces d (String "/" s)) with (open_braces d s).
    match goal with |- context [if ?c then _ else _] => destruct c end;
      [| reflexivity].
    now rewrite open_braces_append.
  - match goal with |- context [if ?c then _ else _] => destruct c end;
      [| reflexivity].
    now rewrite open_braces_append.
Qed.

Lemma count_char_normalize (path : string) :
  count_char "{" (spec_normalize_path path) = count_char "{" path.
Proof.
  unfold spec_normalize_path. destruct path as [| a s]; [reflexivity |].
  destruct (Ascii.eqb a "/") eqn:Ea.
  - apply Ascii.eqb_eq in Ea. subst a.
    change (count_char "{" (String "/" s)) with (count_char "{" s).
    match goal with |- context [if ?c then _ else _] => destruct c end;
      [| reflexivity].
    rewrite count_char_append. simpl. lia.
  - match goal with |- context [if ?c then _ else _] => destruct c end;
      [| reflexivity].
    rewrite count_char_append. simpl. lia.
Qed.

(** Matched braces in the root and in the path give matched braces in the
    URL. *)
Lemma braces_matched_append (p q : string) :
  braces_matched p -> braces_matched q -> braces_matched (p +:+ q).
Proof.
  unfold braces_matched. intros Hp Hq. now rewrite open_braces_append, Hp.
Qed.

(** [braces_matched] in other words: in every suffix there are at least as
    many closing braces as opening ones, so that each opening brace can be
    given a closing brace of its own after it. *)
Lemma excess_cons (a : ascii) (s : string) :
  excess (String a s)
  = (if Ascii.eqb a "{" then 1 else 0) - (if Ascii.eqb a "}" then 1 else 0) + excess s.
Proof.
  unfold excess. simpl count_char.
  destruct (Ascii.eqb a "{"), (Ascii.eqb a "}"); lia.
Qed.

Lemma worst_excess_nonneg (s : string) : 0 <= worst_excess s.
Proof.
  induction s as [| a s IH]; simpl; [lia |]. lia.
Qed.

Lemma open_braces_formula (d : nat) (s : string) :
  Z.of_nat (open_braces d s) = Z.max (Z.of_nat d + excess s) (worst_excess s).
Proof.
  revert d. induction s as [| a s IH]; intros d.
  - unfold excess. simpl. lia.
  - rewrite excess_cons. simpl open_braces. simpl worst_excess.
    destruct (Ascii.eqb a "{") eqn:Eo.
    + apply Ascii.eqb_eq in Eo. subst a. rewrite IH. simpl Ascii.eqb. lia.
    + destruct (Ascii.eqb a "}"); rewrite IH; lia.
Qed.

Lemma suffixes_excess (s : string) :
  excess s <= 0 /\ worst_excess s <= 0
  <-> forall p q, s = p +:+ q -> excess q <= 0.
Proof.
  induction s as [| a s IH].
  - split.
    + intros _ p q H. destruct p; [| discriminate]. rewrite append_nil in H.
      now subst q.
    + intros _. unfold excess. simpl. lia.
  - simpl worst_excess. split.
    + intros [H1 H2] p q H. destruct p as [| b p].
      * rewrite append_nil in H. now subst q.
      * rewrite append_cons in H. injection H as _ H.
        apply (proj1 IH) with (p := p); [lia | exact H].
    + intros H. split; [now apply (H "") |].
      assert (Hs : forall p q, s = p +:+ q -> excess q <= 0).
      { intros p q E. apply (H (String a p)). rewrite append_cons. now rewrite E. }
      apply IH in Hs. lia.
Qed.

Lemma braces_matched_iff (s : string) :
  braces_matched s
  <-> forall p q, s = p +:+ q -> (count_char "{" q <= count_char "}" q)%nat.
Proof.
  unfold braces_matched.
  pose proof (open_braces_formula 0 s) as F. pose proof (worst_excess_nonneg s) as N.
  split.
  - intros H p q E.
    assert (Hs : excess s <= 0 /\ worst_excess s <= 0) by lia.
    pose proof (proj1 (suffixes_excess s) Hs p q E) as Hq. unfold excess in Hq. lia.
  - intros H.
    assert (Hs : forall p q, s = p +:+ q -> excess q <= 0).
    { intros p q E. specialize (H p q E). unfold excess. lia. }
    apply suffixes_excess in Hs. lia.
Qed.

(** C7: when every opening brace of the root followed by the path template
    has its matching closing brace, and no parameter value has an opening
    brace in its string form, the substitution loop of [_build_url] ends:
    started on the root followed by the normalised path, it returns within
    as many turns as there are opening braces, what it returns has no
    opening brace left, and for every path but "/" this is the result of
    [_build_url]. *)
Theorem substitution_terminates (i : implementation) (self : instance)
        (path : string) (params : gmap string Py.value) :
  braces_matched (_url_root self +:+ path) ->
  brace_free_values params ->
  exists r,
    contains "{" r = false
    /\ (forall fuel,
          (count_char "{" (_url_root self +:+ path) <= fuel)%nat ->
          substitute_of i fuel params (_url_root self +:+ spec_normalize_path path)
            (Py.find (_url_root self +:+ spec_normalize_path path) "{" 0) = Ok r)
    /\ (path <> "/" ->
        forall fuel,
          (count_char "{" (_url_root self +:+ path) <= fuel)%nat ->
          build_url_of i fuel self path params = Ok r).
Proof.
  intros Hm Hc.
  set (url := _url_root self +:+ spec_normalize_path path).
  assert (Hm' : braces_matched url).
  { unfold braces_matched, url in *.
    rewrite open_braces_append, open_braces_normalize, <- open_braces_append.
    exact Hm. }
  assert (Hcount : count_char "{" url = count_char "{" (_url_root self +:+ path)).
  { unfold url. now rewrite !count_char_append, count_char_normalize. }
  destruct (substitute_terminates i params Hc (count_char "{" url) url (le_n _) Hm')
    as (r & Hr & Hclean).
  exists r. split; [exact Hclean |].
  assert (Hloop : forall fuel,
             (count_char "{" (_url_root self +:+ path) <= fuel)%nat ->
             substitute_of i fuel params url (Py.find url "{" 0) = Ok r).
  { intros fuel Hfuel.
    apply (substitute_fuel_mono i (count_char "{" url)); [lia | exact Hr]. }
  split; [exact Hloop |].
  intros Hne fuel Hfuel.
  rewrite build_url_unfold, normalize_path_spec by exact Hne.
  now apply Hloop.
Qed.

Lemma substitution_terminates_witness :
  braces_matched (_url_root svc +:+ "/x/{id}/{id}")
  /\ brace_free_values {[ "id" := Py.VStr "7" ]}
  /\ (exists r,
        contains "{" r = false
        /\ build_url_of Service 2 svc "/x/{id}/{id}" {[ "id" := Py.VStr "7" ]} = Ok r)
  /\ build_url_of Service 2 svc "/x/{id}/{id}" {[ "id" := Py.VStr "7" ]}
     = Ok "http://svc/x/7/7/".
Proof.
  assert (Hm : braces_matched (_url_root svc +:+ "/x/{id}/{id}"))
    by (vm_compute; reflexivity).
  assert (Hc : brace_free_values {[ "id" := Py.VStr "7" ]})
    by (apply map_Forall_singleton; vm_compute; reflexivity).
  split; [exact Hm |]. split; [exact Hc |]. split; [| vm_compute; reflexivity].
  destruct (substitution_terminates Service svc "/x/{id}/{id}"
              {[ "id" := Py.VStr "7" ]} Hm Hc) as (r & Hr & _ & H).
  exists r. split; [exact Hr |].
  apply H; [discriminate | vm_compute; lia].
Defined.

(** ** The session caches *)

(** A factory call that finds its name in the cache changes nothing. *)
Lemma factory_cached (i : implementation) (cls : factory) kw (w : world) (r : session_ref) :
  cache_of i w !! __name__ cls = Some r ->
  factory_of i cls kw w
  = (w, a ← make_auth (auth cls) kw; init_of i (service_root cls) (Some r) a None).
Proof.
  intros H.
  destruct i; simpl in *;
    unfold HttpServiceFactory.make_service, HttpClient.make_client, mbind at 1 2 3,
      M_bind, SessionCache.get, ClientSessionCache.get, lift;
    rewrite H; simpl; now destruct (make_auth (auth cls) kw).
Qed.

(** A factory call that does not find its name creates one session and
    caches it under the name. *)
Lemma factory_fresh (i : implementation) (cls : factory) kw (w : world) :
  cache_of i w !! __name__ cls = None ->
  factory_of i cls kw w
  = (world_with_new_session i cls w,
     a ← make_auth (auth cls) kw;
     init_of i (service_root cls) (Some (length (sessions w))) a None).
Proof.
  intros H.
  destruct i; simpl in *;
    unfold HttpServiceFactory.make_service, HttpClient.make_client, mbind,
      M_bind, SessionCache.get, ClientSessionCache.get, lift;
    rewrite H; simpl; now destruct (make_auth (auth cls) kw).
Qed.

Lemma length_store_with_new_session (cls : factory) (w : world) :
  length (store_with_new_session cls w) = S (length (sessions w)).
Proof.
  unfold store_with_new_session. rewrite !length_alter, length_app. simpl. lia.
Qed.

Lemma cache_invariant_initial t : cache_invariant (initial_world t).
Proof.
  repeat split.
  - intros i name r. destruct i; simpl; now rewrite lookup_empty.
  - destruct i; simpl in *; now rewrite lookup_empty in *.
  - destruct i; simpl in *; now rewrite lookup_empty in *.
Qed.

(** The dispatcher touches neither the store nor the caches. *)
Lemma make_request_world (i : implementation) fuel self method path pp qp data h t re w :
  sessions (make_request_of i fuel self method path pp qp data h t re w).1 = sessions w
  /\ (forall j, cache_of j (make_request_of i fuel self method path pp qp data h t re w).1
                = cache_of j w).
Proof.
  destruct (url_for i fuel self path pp) as [url | e |] eqn:Hurl.
  - destruct (_requestor self) as [s |] eqn:Hsession.
    + rewrite (make_request_url _ _ _ _ _ _ _ _ _ _ _ _ _ s Hurl Hsession).
      cbv zeta. simpl. split; [reflexivity | now intros []].
    + rewrite (make_request_no_session _ _ _ _ _ _ _ _ _ _ _ _ _ Hurl Hsession).
      simpl. split; [reflexivity | now intros []].
  - rewrite make_request_no_url by (rewrite Hurl; discriminate). simpl.
    split; [reflexivity | now intros []].
  - rewrite make_request_no_url by (rewrite Hurl; discriminate). simpl.
    split; [reflexivity | now intros []].
Qed.

Lemma cache_of_new_session_same (i : implementation) cls w :
  cache_of i (world_with_new_session i cls w)
  = <[__name__ cls := length (sessions w)]> (cache_of i w).
Proof. now destruct i. Qed.

Lemma cache_of_new_session_other (i j : implementation) cls w :
  i <> j -> cache_of j (world_with_new_session i cls w) = cache_of j w.
Proof. now destruct i, j. Qed.

Lemma sessions_new_session (i : implementation) cls w :
  length (sessions (world_with_new_session i cls w)) = S (length (sessions w)).
Proof. destruct i; apply length_store_with_new_session. Qed.

Lemma implementation_eq_dec (i j : implementation) : {i = j} + {i <> j}.
Proof. decide equality. Qed.

Lemma lookup_new_session (i j : implementation) cls w name r :
  cache_of j (world_with_new_session i cls w) !! name = Some r ->
  (i = j /\ name = __name__ cls /\ r = length (sessions w))
  \/ cache_of j w !! name = Some r.
Proof.
  destruct (implementation_eq_dec i j) as [<- | Hij].
  - rewrite cache_of_new_session_same.
    destruct (decide (__name__ cls = name)) as [<- | Hne].
    + rewrite lookup_insert_eq. intros [= <-]. now left.
    + rewrite lookup_insert_ne by exact Hne. now right.
  - rewrite cache_of_new_session_other by exact Hij. now right.
Qed.

Lemma cache_invariant_new_session (i : implementation) cls w :
  cache_of i w !! __name__ cls = None ->
  cache_invariant w -> cache_invariant (world_with_new_session i cls w).
Proof.
  intros Hnone (Hbound & Hinj & Hsize). split; [| split].
  - intros j name r H. rewrite sessions_new_session.
    apply lookup_new_session in H as [(_ & _ & ->) | H]; [lia |].
    specialize (Hbound j name r H). lia.
  - intros j k name1 name2 r H1 H2.
    apply lookup_new_session in H1 as [(<- & -> & ->) | H1];
      apply lookup_new_session in H2 as [(<- & -> & E) | H2].
    + now split.
    + specialize (Hbound _ _ _ H2). lia.
    + specialize (Hbound _ _ _ H1). lia.
    + now apply (Hinj j k name1 name2 r).
  - rewrite sessions_new_session, Hsize.
    destruct i; simpl in *; rewrite map_size_insert_None by exact Hnone; lia.
Qed.

Lemma factory_world (i : implementation) cls kw w :
  (exists r, cache_of i w !! __name__ cls = Some r /\ (factory_of i cls kw w).1 = w)
  \/ (cache_of i w !! __name__ cls = None
      /\ (factory_of i cls kw w).1 = world_with_new_session i cls w).
Proof.
  destruct (cache_of i w !! __name__ cls) as [r |] eqn:H.
  - left. exists r. split; [reflexivity |]. now rewrite (factory_cached i cls kw w r H).
  - right. split; [reflexivity |]. now rewrite (factory_fresh i cls kw w H).
Qed.

Lemma cache_invariant_action (a : action) (w : world) :
  cache_invariant w -> cache_invariant (run_action a w).
Proof.
  intros Hinv. destruct a as [i cls kw | i fuel self method path pp qp data h t re]; simpl.
  - destruct (factory_world i cls kw w) as [(r & _ & ->) | (Hnone & ->)];
      [exact Hinv | now apply cache_invariant_new_session].
  - destruct (make_request_world i fuel self method path pp qp data h t re w) as [Hs Hc].
    destruct Hinv as (Hbound & Hinj & Hsize). unfold cache_invariant.
    rewrite Hs, (Hc Service : services_cache _ = _), (Hc Client : clients_cache _ = _).
    repeat split.
    + intros j name r. rewrite Hc. apply Hbound.
    + rewrite !Hc in *. eapply Hinj; eassumption.
    + rewrite !Hc in *. eapply Hinj; eassumption.
    + exact Hsize.
Qed.

(** Once a name is cached, it stays cached with the same session. *)
Lemma cache_stable_action (a : action) (w : world) j name r :
  cache_of j w !! name = Some r -> cache_of j (run_action a w) !! name = Some r.
Proof.
  intros H. destruct a as [i cls kw | i fuel self method path pp qp data h t re]; simpl.
  - destruct (factory_world i cls kw w) as [(r' & _ & ->) | (Hnone & ->)];
      [exact H |].
    destruct (implementation_eq_dec i j) as [<- | Hij].
    + rewrite cache_of_new_session_same, lookup_insert_ne; [exact H |].
      intros <-. congruence.
    + now rewrite cache_of_new_session_other.
  - destruct (make_request_world i fuel self method path pp qp data h t re w) as [_ Hc].
    now rewrite Hc.
Qed.

Lemma cache_invariant_run (acts : list action) (w : world) :
  cache_invariant w -> cache_invariant (run acts w).
Proof.
  revert w. induction acts as [| a acts IH]; intros w Hinv; [exact Hinv |].
  apply IH. now apply cache_invariant_action.
Qed.

Lemma cache_stable_run (acts : list action) (w : world) j name r :
  cache_of j w !! name = Some r -> cache_of j (run acts w) !! name = Some r.
Proof.
  revert w. induction acts as [| a acts IH]; intros w H; [exact H |].
  apply IH. now apply cache_stable_action.
Qed.

Lemma init_requestor (i : implementation) root r a t c :
  init_of i root (Some r) a t = Ok c -> _requestor c = UseSession r.
Proof.
  destruct i; simpl; unfold HttpService.__init__, HttpClient.__init__;
    (destruct (_ root) as [root' | e |]; simpl; [| discriminate | discriminate]);
    now intros [= <-].
Qed.

(** The client a factory returns is bound to the session cached under the
    factory's name. *)
Lemma factory_bound (i : implementation) cls kw w c :
  (factory_of i cls kw w).2 = Ok c ->
  exists r,
    _requestor c = UseSession r
    /\ cache_of i (factory_of i cls kw w).1 !! __name__ cls = Some r.
Proof.
  destruct (cache_of i w !! __name__ cls) as [r |] eqn:H.
  - rewrite (factory_cached i cls kw w r H). simpl.
    destruct (make_auth (auth cls) kw) as [a | e |]; simpl; try discriminate.
    intros Hc. exists r. split; [now apply init_requestor in Hc | exact H].
  - rewrite (factory_fresh i cls kw w H). simpl.
    destruct (make_auth (auth cls) kw) as [a | e |]; simpl; try discriminate.
    intros Hc. exists (length (sessions w)).
    split; [now apply init_requestor in Hc |].
    rewrite cache_of_new_session_same. apply lookup_insert_eq.
Qed.

(** With a non-empty root and an auth object that can be built, a factory
    returns a client. *)
Lemma factory_returns (i : implementation) cls kw w a :
  service_root cls <> "" -> make_auth (auth cls) kw = Ok a ->
  exists r,
    (factory_of i cls kw w).2
    = Ok (Instance (spec_normalize_root (service_root cls)) (UseSession r) a None).
Proof.
  intros Hroot Hauth.
  destruct (cache_of i w !! __name__ cls) as [r |] eqn:H.
  - exists r. rewrite (factory_cached i cls kw w r H). simpl. rewrite Hauth. simpl.
    now rewrite init_nonempty.
  - exists (length (sessions w)). rewrite (factory_fresh i cls kw w H). simpl.
    rewrite Hauth. simpl. now rewrite init_nonempty.
Qed.

(** C5: in any run of the program, started from empty caches, take two
    calls of the same factory method ([make_service] or [make_client]) that
    return clients, with any actions before and between them.  Both clients
    are bound to sessions; for the same type name it is the same session,
    for different type names the sessions differ.  After the calls the
    caches still satisfy their invariant: every cached session exists, no
    session is cached under two names, and there are exactly as many
    sessions as cached names. *)
Theorem session_per_type_name (i : implementation)
        (t : list issued -> issued -> transport_answer)
        (before between : list action) (cls1 cls2 : factory)
        (kw1 kw2 : option (gmap string Py.value)) (c1 c2 : instance) :
  (factory_of i cls1 kw1 (run before (initial_world t))).2 = Ok c1 ->
  (factory_of i cls2 kw2
     (run between (factory_of i cls1 kw1 (run before (initial_world t))).1)).2
  = Ok c2 ->
  (exists s1 s2,
      _requestor c1 = UseSession s1 /\ _requestor c2 = UseSession s2
      /\ (__name__ cls1 = __name__ cls2 -> s1 = s2)
      /\ (__name__ cls1 <> __name__ cls2 -> s1 <> s2))
  /\ cache_invariant
       (factory_of i cls2 kw2
          (run between (factory_of i cls1 kw1 (run before (initial_world t))).1)).1.
Proof.
  set (w0 := run before (initial_world t)).
  set (w1 := (factory_of i cls1 kw1 w0).1).
  set (w2 := run between w1).
  set (w3 := (factory_of i cls2 kw2 w2).1).
  intros H1 H2.
  assert (Hinv : cache_invariant w3).
  { apply (cache_invariant_action (CallFactory i cls2 kw2)), cache_invariant_run.
    apply (cache_invariant_action (CallFactory i cls1 kw1)), cache_invariant_run.
    apply cache_invariant_initial. }
  split; [| exact Hinv].
  destruct (factory_bound i cls1 kw1 w0 c1 H1) as (s1 & Hc1 & Hs1).
  destruct (factory_bound i cls2 kw2 w2 c2 H2) as (s2 & Hc2 & Hs2).
  fold w1 in Hs1. fold w3 in Hs2.
  assert (Hs1' : cache_of i w3 !! __name__ cls1 = Some s1).
  { apply (cache_stable_action (CallFactory i cls2 kw2)), cache_stable_run, Hs1. }
  exists s1, s2. split; [exact Hc1 |]. split; [exact Hc2 |]. split.
  - intros E. rewrite E in Hs1'. congruence.
  - intros Hne ->. destruct Hinv as (_ & Hinj & _).
    now destruct (Hinj i i _ _ _ Hs1' Hs2).
Qed.

Lemma session_per_type_name_witness :
  (HttpServiceFactory.make_service Orders (Some {[ "token" := Py.VStr "a" ]})
     (initial_world (fun _ _ => Answers not_found))).2
  = Ok (Instance "http://orders/" (UseSession 0%nat) (Some (JwtAuth (Py.VStr "a"))) None)
  /\ (HttpServiceFactory.make_service Billing None
        (HttpServiceFactory.make_service Orders (Some {[ "token" := Py.VStr "a" ]})
           (initial_world (fun _ _ => Answers not_found))).1).2
     = Ok (Instance "http://billing/" (UseSession 1%nat) None None)
  /\ exists s1 s2,
      UseSession 0%nat = UseSession s1 /\ UseSession 1%nat = UseSession s2
      /\ ("Orders" = "Billing" -> s1 = s2)
      /\ ("Orders" <> "Billing" -> s1 <> s2).
Proof.
  assert (H1 : (factory_of Service Orders (Some {[ "token" := Py.VStr "a" ]})
                  (run [] (initial_world (fun _ _ => Answers not_found)))).2
               = Ok (Instance "http://orders/" (UseSession 0%nat)
                       (Some (JwtAuth (Py.VStr "a"))) None))
    by (vm_compute; reflexivity).
  assert (H2 : (factory_of Service Billing None
                  (run [] (factory_of Service Orders (Some {[ "token" := Py.VStr "a" ]})
                             (run [] (initial_world (fun _ _ => Answers not_found)))).1)).2
               = Ok (Instance "http://billing/" (UseSession 1%nat) None None))
    by (vm_compute; reflexivity).
  split; [exact H1 |]. split; [exact H2 |].
  exact (proj1 (session_per_type_name Service _ [] [] Orders Billing _ _ _ _ H1 H2)).
Defined.

(** ** An opening brace with no closing brace *)

Lemma contains_drop (c : ascii) (k : nat) (s : string) :
  contains c s = false -> contains c (Py.drop k s) = false.
Proof.
  revert k. induction s as [| a s IH]; intros k; [now destruct k |].
  destruct k as [| k]; [trivial |]. simpl.
  destruct (Ascii.eqb a c); simpl; [discriminate | apply IH].
Qed.

Lemma find_absent (s : string) (c : ascii) (start : Z) :
  contains c s = false -> Py.find s c start = -1.
Proof.
  intros H. unfold Py.find. apply find_at_absent. now apply contains_drop.
Qed.

Lemma slice_to_0 (s : string) (start : Z) :
  0 <= start -> Py.slice s (Some start) (Some 0) = "".
Proof.
  intros Hs. unfold Py.slice, Py.clip, Py.len. change (0 <? 0) with false. cbv iota.
  replace (Z.min 0 (Z.of_nat (String.length s))) with 0 by lia.
  change (Z.to_nat 0) with O. reflexivity.
Qed.

Lemma contains_replace_empty (c : ascii) (new s : string) :
  contains c (Py.replace_empty new s) = contains c new || contains c s.
Proof.
  induction s as [| a s IH]; simpl.
  - now rewrite orb_false_r.
  - rewrite contains_append. simpl. rewrite IH.
    destruct (contains c new), (Ascii.eqb a c), (contains c s); reflexivity.
Qed.

(** X3: when the URL has an opening brace and no closing brace at all, and
    the empty name is not a parameter, the loop never returns: every turn puts
    "None" between the characters and the brace is still there. *)
Lemma unmatched_brace_loops (i : implementation) (params : gmap string Py.value) :
  params !! "" = None ->
  forall fuel url,
    contains "{" url = true -> contains "}" url = false ->
    substitute_of i fuel params url (Py.find url "{" 0) = OutOfFuel.
Proof.
  intros Hp.
  assert (H : forall fuel url,
             contains "{" url = true -> contains "}" url = false ->
             HttpService.substitute fuel params url (Py.find url "{" 0) = OutOfFuel).
  { induction fuel as [| fuel IH]; intros url Ho Hc.
    - pose proof (find_at_present "{" url 0 Ho) as Hs. rewrite find_from_0. simpl.
      destruct (Py.find_at "{" url 0 >=? 0) eqn:E; [reflexivity | lia].
    - pose proof (find_at_present "{" url 0 Ho) as Hs. rewrite <- find_from_0 in Hs.
      rewrite substitute_S by lia.
      rewrite (find_absent url "}" _ Hc). change (-1 + 1) with 0.
      rewrite slice_to_0 by lia.
      change (Py.slice "" (Some 1) (Some (-1))) with "".
      unfold Py.get. rewrite Hp. simpl default. simpl Py.str. simpl Py.nonempty.
      cbv iota. change (Py.replace url "" "None") with (Py.replace_empty "None" url).
      apply IH; rewrite contains_replace_empty; [now rewrite Ho | now rewrite Hc]. }
  now destruct i.
Qed.

(** ** The examples of the specification *)

Example build_url_with_parameter (i : implementation) :
  build_url_of i 1 svc "/x/{id}/" {[ "id" := Py.VStr "7" ]} = Ok "http://svc/x/7/".
Proof. destruct i; vm_compute; reflexivity. Qed.

Example build_url_empty_path (i : implementation) :
  build_url_of i 0 svc "" ∅ = Ok "http://svc/".
Proof. destruct i; vm_compute; reflexivity. Qed.

Example build_url_repeated_placeholder (i : implementation) :
  build_url_of i 1 svc "{a}/{b}/{a}" {[ "a" := Py.VInt 12 ]} = OutOfFuel
  /\ build_url_of i 2 svc "{a}/{b}/{a}" {[ "a" := Py.VInt 12 ]}
     = Ok "http://svc/12/None/12/".
Proof. destruct i; split; vm_compute; reflexivity. Qed.

Example same_type_name_same_session :
  (HttpServiceFactory.make_service Billing None
     (HttpServiceFactory.make_service Billing None
        (initial_world (fun _ _ => Answers not_found))).1).2
  = Ok (Instance "http://billing/" (UseSession 0%nat) None None).
Proof. vm_compute. reflexivity. Qed.

Example dispatch_not_found :
  (HttpService.get 1 svc "/x/{id}/" (Some {[ "id" := Py.VStr "7" ]}) None None true
     (initial_world (fun _ _ => Answers not_found))).2
  = Raise (ServiceException not_found)
  /\ (HttpClient.get 1 svc "/x/{id}/" (Some {[ "id" := Py.VStr "7" ]}) None None false
        (initial_world (fun _ _ => Answers not_found))).2
     = Ok not_found.
Proof. split; vm_compute; reflexivity. Qed.

(** ** What the substitution loop computes on a template *)

Section Templates.

Implicit Types (tpl : list segment) (params : gmap string Py.value).

(** The first placeholder of a URL of a known shape, as the loop finds it. *)
Lemma placeholder_at (pre mid post : string) :
  contains "{" pre = false -> contains "}" mid = false ->
  Py.find (pre +:+ String "{" (mid +:+ "}") +:+ post) "{" 0
  = Z.of_nat (String.length pre)
  /\ Py.slice (pre +:+ String "{" (mid +:+ "}") +:+ post)
       (Some (Z.of_nat (String.length pre)))
       (Some (Py.find (pre +:+ String "{" (mid +:+ "}") +:+ post) "}"
                (Z.of_nat (String.length pre)) + 1))
     = String "{" (mid +:+ "}").
Proof.
  intros Hpre Hmid.
  assert (Hshape : String "{" (mid +:+ "}") +:+ post
                   = String "{" (mid +:+ String "}" post)).
  { rewrite append_cons, append_assoc. reflexivity. }
  rewrite Hshape. split.
  - rewrite find_from_0, find_at_append by exact Hpre. lia.
  - rewrite find_from_nat by (rewrite length_append; lia).
    rewrite drop_append.
    change (Py.find_at "}" (String "{" (mid +:+ String "}" post))
              (Z.of_nat (String.length pre)))
      with (Py.find_at "}" (mid +:+ String "}" post) (Z.of_nat (String.length pre) + 1)).
    rewrite find_at_append by exact Hmid.
    replace (Z.of_nat (String.length pre) + 1 + Z.of_nat (String.length mid) + 1)
      with (Z.of_nat (String.length pre + (String.length mid + 2))) by lia.
    rewrite slice_nat.
    + rewrite drop_append, <- Hshape.
      replace (String.length pre + (String.length mid + 2) - String.length pre)%nat
        with (String.length (String "{" (mid +:+ "}"))).
      * apply take_append.
      * simpl. rewrite length_append. simpl. lia.
    + rewrite length_append. simpl. rewrite length_append. simpl. lia.
    + lia.
Qed.

(** [replace[1:-1]]: the name between the braces. *)
Lemma slice_inner (mid : string) :
  Py.slice (String "{" (mid +:+ "}")) (Some 1) (Some (-1)) = mid.
Proof.
  unfold Py.slice, Py.clip, Py.len. change (1 <? 0) with false.
  change (-1 <? 0) with true. cbv iota.
  assert (Hlen : String.length (String "{" (mid +:+ "}")) = (String.length mid + 2)%nat).
  { simpl. rewrite length_append. simpl. lia. }
  rewrite Hlen.
  replace (Z.to_nat (Z.min 1 (Z.of_nat (String.length mid + 2)))) with 1%nat by lia.
  replace (Z.to_nat (Z.max 0 (Z.of_nat (String.length mid + 2) + -1)))
    with (String.length mid + 1)%nat by lia.
  simpl Py.drop.
  replace (String.length mid + 1 - 1)%nat with (String.length mid) by lia.
  apply take_append.
Qed.

Lemma prefix_cons (a b : ascii) (s1 s2 : string) :
  String.prefix (String a s1) (String b s2)
  = if ascii_dec a b then String.prefix s1 s2 else false.
Proof. reflexivity. Qed.

(** A name followed by a closing brace starts the text of another name
    followed by a closing brace only if the names are the same. *)
Lemma prefix_name (name other_name rest : string) :
  contains "}" name = false -> contains "}" other_name = false ->
  String.prefix (name +:+ "}") (other_name +:+ String "}" rest) = true ->
  other_name = name.
Proof.
  revert other_name. induction name as [| a name IH]; intros other_name Hn Ho.
  - destruct other_name as [| b other_name]; [reflexivity |].
    rewrite append_nil, append_cons, prefix_cons.
    destruct (ascii_dec "}" b) as [<- |]; [| discriminate].
    simpl in Ho. discriminate.
  - simpl in Hn. destruct (Ascii.eqb a "}") eqn:Ea; [discriminate |]. simpl in Hn.
    destruct other_name as [| b other_name].
    + rewrite append_nil, append_cons, prefix_cons.
      destruct (ascii_dec a "}") as [-> |]; [| discriminate].
      now rewrite Ascii.eqb_refl in Ea.
    + rewrite !append_cons, prefix_cons.
      destruct (ascii_dec a b) as [<- |]; [| discriminate].
      simpl in Ho. rewrite Ea in Ho. simpl in Ho.
      intros H. now rewrite (IH other_name Hn Ho H).
Qed.

(** Replacing a placeholder in the text of a template fills the template. *)
Lemma replace_template (name new : string) tpl :
  contains "{" name = false -> contains "}" name = false ->
  template_ok tpl ->
  Py.replace (template_text tpl) (String "{" (name +:+ "}")) new
  = template_text (fill name new tpl).
Proof.
  intros Hn1 Hn2. induction 1 as [| seg rest Hseg Hrest IH]; [reflexivity |].
  simpl template_text. destruct seg as [text | other_name]; simpl in Hseg.
  - simpl segment_text. rewrite replace_after_prefix by exact Hseg. now rewrite IH.
  - destruct Hseg as [Ho1 Ho2]. simpl segment_text. simpl fill_segment.
    destruct (String.eqb_spec other_name name) as [-> | Hne].
    + simpl segment_text. rewrite replace_match. now rewrite IH.
    + simpl segment_text.
      assert (Hshape : String "{" (other_name +:+ "}") +:+ template_text rest
                       = String "{" ((other_name +:+ "}") +:+ template_text rest))
        by apply append_cons.
      rewrite Hshape, replace_no_match.
      * rewrite replace_after_prefix, IH; [reflexivity |].
        rewrite contains_append, Ho1. reflexivity.
      * rewrite prefix_cons. destruct (ascii_dec "{" "{"); [| reflexivity].
        destruct (String.prefix (name +:+ "}")
                    ((other_name +:+ "}") +:+ template_text rest)) eqn:Hp;
          [| reflexivity].
        rewrite append_assoc in Hp. rewrite append_cons, append_nil in Hp.
        now apply prefix_name in Hp.
Qed.

Lemma fill_ok (name new : string) tpl :
  contains "{" new = false -> template_ok tpl -> template_ok (fill name new tpl).
Proof.
  intros Hnew. induction 1 as [| seg rest Hseg Hrest IH]; [constructor |].
  simpl. constructor; [| exact IH].
  destruct seg as [text | other_name]; simpl; [exact Hseg |].
  now destruct (String.eqb other_name name).
Qed.

Lemma fill_render params (name : string) tpl :
  render params (fill name (Py.str (Py.get params name)) tpl) = render params tpl.
Proof.
  induction tpl as [| seg rest IH]; [reflexivity |]. simpl. rewrite IH. f_equal.
  destruct seg as [text | other_name]; simpl; [reflexivity |].
  now destruct (String.eqb_spec other_name name) as [-> |].
Qed.

Lemma fill_holes_le (name new : string) tpl :
  (holes (fill name new tpl) <= holes tpl)%nat.
Proof.
  induction tpl as [| seg rest IH]; simpl; [lia |].
  destruct seg as [text | other_name]; simpl; [exact IH |].
  destruct (String.eqb other_name name); simpl; lia.
Qed.

(** The first placeholder of a template with placeholders. *)
Lemma first_hole tpl :
  template_ok tpl -> (0 < holes tpl)%nat ->
  exists pre name post,
    template_text tpl = pre +:+ String "{" (name +:+ "}") +:+ post
    /\ contains "{" pre = false
    /\ contains "{" name = false /\ contains "}" name = false
    /\ (forall new, holes (fill name new tpl) < holes tpl)%nat.
Proof.
  induction 1 as [| seg rest Hseg Hrest IH]; simpl; [lia |].
  destruct seg as [text | name]; simpl in Hseg.
  - intros Hpos. destruct (IH Hpos) as (pre & name & post & Ht & Hpre & Hn1 & Hn2 & Hlt).
    exists (text +:+ pre), name, post. simpl segment_text.
    rewrite Ht, append_assoc, contains_append, Hseg, Hpre.
    split; [reflexivity |]. split; [reflexivity |]. split; [exact Hn1 |].
    split; [exact Hn2 |]. intros new. apply Hlt.
  - intros _. destruct Hseg as [Hn1 Hn2].
    exists "", name, (template_text rest). rewrite append_nil.
    split; [reflexivity |]. split; [reflexivity |]. split; [exact Hn1 |].
    split; [exact Hn2 |]. intros new. simpl. rewrite String.eqb_refl.
    simpl. pose proof (fill_holes_le name new rest). lia.
Qed.

Lemma no_holes tpl params :
  template_ok tpl -> holes tpl = O ->
  contains "{" (template_text tpl) = false /\ render params tpl = template_text tpl.
Proof.
  induction 1 as [| seg rest Hseg Hrest IH]; simpl; [split; reflexivity |].
  destruct seg as [text | name]; simpl in *; [| discriminate].
  intros Hz. destruct (IH Hz) as [Hc Hr].
  now rewrite contains_append, Hseg, Hc, Hr.
Qed.

Lemma substitute_template params :
  brace_free_values params ->
  forall fuel tpl,
    template_ok tpl -> (holes tpl <= fuel)%nat ->
    HttpService.substitute fuel params (template_text tpl)
      (Py.find (template_text tpl) "{" 0)
    = Ok (render params tpl).
Proof.
  intros Hc.
  assert (Hdone : forall fuel tpl,
             template_ok tpl -> holes tpl = O ->
             HttpService.substitute fuel params (template_text tpl)
               (Py.find (template_text tpl) "{" 0)
             = Ok (render params tpl)).
  { intros fuel tpl Hok Hz. destruct (no_holes tpl params Hok Hz) as [Hno ->].
    rewrite find_from_0, find_at_absent by exact Hno. now destruct fuel. }
  induction fuel as [| fuel IH]; intros tpl Hok Hfuel; [apply Hdone; [exact Hok | lia] |].
  destruct (holes tpl) as [| k] eqn:Hk; [now apply Hdone |].
  destruct (first_hole tpl Hok ltac:(lia))
    as (pre & name & post & Ht & Hpre & Hn1 & Hn2 & Hlt).
  destruct (placeholder_at pre name post Hpre Hn2) as [Hfind Hslice].
  rewrite <- Ht in Hfind, Hslice.
  rewrite substitute_S by (rewrite Hfind; lia).
  rewrite Hfind, Hslice, slice_inner, nonempty_or_empty.
  rewrite replace_template by assumption.
  rewrite IH.
  - now rewrite fill_render.
  - apply fill_ok; [apply brace_free_get, Hc | exact Hok].
  - specialize (Hlt (Py.str (Py.get params name))). lia.
Qed.

End Templates.

(** X1: when the root followed by the normalised path reads as a template
    (literal text without opening brace, placeholders whose names have no
    brace) and no parameter value has an opening brace in its string form,
    [_build_url] returns the template with every placeholder replaced by the
    string form of its parameter ("None" for an absent one), within as many
    turns as there are placeholders: every occurrence is substituted and
    parameters the template does not name play no part. *)
Theorem build_url_renders_template (i : implementation) (fuel : nat)
        (self : instance) (path : string) (params : gmap string Py.value)
        (tpl : list segment) :
  path <> "/" ->
  _url_root self +:+ spec_normalize_path path = template_text tpl ->
  template_ok tpl ->
  brace_free_values params ->
  (holes tpl <= fuel)%nat ->
  build_url_of i fuel self path params = Ok (render params tpl).
Proof.
  intros Hne Htext Hok Hc Hfuel.
  rewrite build_url_unfold, normalize_path_spec by exact Hne. simpl mbind.
  rewrite Htext.
  pose proof (substitute_template params Hc fuel tpl Hok Hfuel) as H.
  now destruct i.
Qed.

Lemma build_url_renders_template_witness :
  "/users/{uid}/orders/{oid}/{uid}" <> "/"
  /\ build_url_of Service 3 svc "/users/{uid}/orders/{oid}/{uid}"
       {[ "uid" := Py.VInt 7; "oid" := Py.VStr "a}b"; "unused" := Py.VStr "z" ]}
     = Ok "http://svc/users/7/orders/a}b/7/".
Proof.
  split; [discriminate |].
  rewrite (build_url_renders_template Service 3 svc "/users/{uid}/orders/{oid}/{uid}"
             {[ "uid" := Py.VInt 7; "oid" := Py.VStr "a}b"; "unused" := Py.VStr "z" ]}
             [Lit "http://svc/users/"; Hole "uid"; Lit "/orders/"; Hole "oid";
              Lit "/"; Hole "uid"; Lit "/"]).
  - vm_compute. reflexivity.
  - discriminate.
  - vm_compute. reflexivity.
  - repeat constructor.
  - repeat (apply map_Forall_insert_2; [vm_compute; reflexivity |]).
    apply map_Forall_empty.
  - simpl. lia.
Defined.

(** ** More on the URL builder *)

Lemma substitute_nothing (i : implementation) fuel params url :
  contains "{" url = false ->
  substitute_of i fuel params url (Py.find url "{" 0) = Ok url.
Proof.
  intros Hno. rewrite find_from_0, find_at_absent by exact Hno.
  destruct i, fuel; reflexivity.
Qed.

(** X2: when neither the root nor the path has an opening brace,
    [_build_url] returns the root followed by the normalised path, whatever
    the parameters and without a single turn of the loop; on the empty path
    it returns the root. *)
Theorem build_url_without_placeholder (i : implementation) (fuel : nat)
        (self : instance) (path : string) (params : gmap string Py.value) :
  path <> "/" ->
  contains "{" (_url_root self) = false ->
  contains "{" path = false ->
  build_url_of i fuel self path params
  = Ok (_url_root self +:+ spec_normalize_path path)
  /\ build_url_of i fuel self "" params = Ok (_url_root self).
Proof.
  intros Hne Hroot Hpath.
  assert (Hnorm : contains "{" (spec_normalize_path path) = false).
  { apply count_char_zero. rewrite count_char_normalize. now apply count_char_zero. }
  split.
  - rewrite build_url_unfold, normalize_path_spec by exact Hne. simpl mbind.
    apply substitute_nothing. now rewrite contains_append, Hroot, Hnorm.
  - rewrite build_url_unfold, normalize_path_spec by discriminate. simpl mbind.
    change (spec_normalize_path "") with "". rewrite append_empty_r.
    now apply substitute_nothing.
Qed.

Lemma build_url_without_placeholder_witness :
  "/v1/items" <> "/"
  /\ build_url_of Client 0 svc "/v1/items" {[ "id" := Py.VStr "{id}" ]}
     = Ok "http://svc/v1/items/"
  /\ build_url_of Client 0 svc "" {[ "id" := Py.VStr "{id}" ]} = Ok "http://svc/".
Proof.
  split; [discriminate |].
  exact (build_url_without_placeholder Client 0 svc "/v1/items"
           {[ "id" := Py.VStr "{id}" ]} ltac:(discriminate) eq_refl eq_refl).
Defined.

Lemma unmatched_brace_loops_witness :
  (∅ : gmap string Py.value) !! "" = None
  /\ contains "{" "http://svc/x/{id/" = true
  /\ contains "}" "http://svc/x/{id/" = false
  /\ substitute_of Service 50 ∅ "http://svc/x/{id/"
       (Py.find "http://svc/x/{id/" "{" 0) = OutOfFuel.
Proof.
  split; [apply lookup_empty |]. split; [reflexivity |]. split; [reflexivity |].
  apply unmatched_brace_loops; [apply lookup_empty | reflexivity | reflexivity].
Defined.

Lemma replace_same (a : ascii) (old : string) (n : nat) :
  forall s, (String.length s <= n)%nat ->
    Py.replace s (String a old) (String a old) = s.
Proof.
  induction n as [| n IH]; intros s Hlen.
  - destruct s; [reflexivity | simpl in Hlen; lia].
  - destruct (replace_cases a old (String a old) s)
      as [-> | [(q & -> & ->) | (b & s' & -> & ->)]].
    + reflexivity.
    + rewrite length_append in Hlen. simpl in Hlen. rewrite IH by lia. reflexivity.
    + simpl in Hlen. rewrite IH by lia. reflexivity.
Qed.

(** X4: when the string form of the parameter of the first placeholder is
    that placeholder itself, a turn of the loop leaves the URL as it was and
    [_build_url]'s loop never returns. *)
Theorem self_reference_loops (i : implementation) (params : gmap string Py.value)
        (pre name post : string) (fuel : nat) :
  contains "{" pre = false ->
  contains "}" name = false ->
  Py.str (Py.get params name) = String "{" (name +:+ "}") ->
  substitute_of i fuel params (pre +:+ String "{" (name +:+ "}") +:+ post)
    (Py.find (pre +:+ String "{" (name +:+ "}") +:+ post) "{" 0)
  = OutOfFuel.
Proof.
  intros Hpre Hname Hself.
  destruct (placeholder_at pre name post Hpre Hname) as [Hfind Hslice].
  set (url := pre +:+ String "{" (name +:+ "}") +:+ post) in *.
  assert (H : HttpService.substitute fuel params url (Py.find url "{" 0) = OutOfFuel).
  { induction fuel as [| fuel IH].
    - rewrite Hfind. simpl.
      destruct (Z.of_nat (String.length pre) >=? 0) eqn:E; [reflexivity | lia].
    - rewrite substitute_S by (rewrite Hfind; lia).
      rewrite Hfind, Hslice, slice_inner, nonempty_or_empty, Hself.
      rewrite (replace_same "{" (name +:+ "}") (String.length url) url (le_n _)).
      exact IH. }
  now destruct i.
Qed.

Lemma self_reference_loops_witness :
  contains "{" "http://svc/" = false
  /\ contains "}" "id" = false
  /\ Py.str (Py.get {[ "id" := Py.VStr "{id}" ]} "id") = String "{" ("id" +:+ "}")
  /\ substitute_of Service 3 {[ "id" := Py.VStr "{id}" ]}
       ("http://svc/" +:+ String "{" ("id" +:+ "}") +:+ "/x/")
       (Py.find ("http://svc/" +:+ String "{" ("id" +:+ "}") +:+ "/x/") "{" 0)
     = OutOfFuel
  /\ build_url_of Service 3 svc "/{id}/x" {[ "id" := Py.VStr "{id}" ]} = OutOfFuel.
Proof.
  assert (H1 : contains "{" "http://svc/" = false) by (vm_compute; reflexivity).
  assert (H2 : contains "}" "id" = false) by (vm_compute; reflexivity).
  assert (H3 : Py.str (Py.get {[ "id" := Py.VStr "{id}" ]} "id")
               = String "{" ("id" +:+ "}")) by (vm_compute; reflexivity).
  split; [exact H1 |]. split; [exact H2 |]. split; [exact H3 |].
  split; [| vm_compute; reflexivity].
  apply self_reference_loops; assumption.
Defined.

(** ** More on the dispatcher *)

(** X5: for a client bound to a session, when the transport fails on the
    call, the dispatcher ends with the transport's own failure, whether
    raising is enabled or not; the call has been issued, and the failure is
    never turned into a service error. *)
Theorem transport_failure_propagates (i : implementation) (fuel : nat)
        (self : instance) (method path : string)
        (pp : option (gmap string Py.value)) (qp : option (gmap string string))
        (data : option string) (h : option (gmap string string))
        (t : option timeout_value) (re : bool) (w : world) (url what : string)
        (s : session_ref) :
  url_for i fuel self path pp = Ok url ->
  _requestor self = UseSession s ->
  transport w (log w)
    (_requestor self,
     TransportCall method url qp data h
       (if timeout_truthy t then t else _timeout self) (_auth self))
  = Fails what ->
  (make_request_of i fuel self method path pp qp data h t re w).2
  = Raise (TransportError what)
  /\ log (make_request_of i fuel self method path pp qp data h t re w).1
     = (log w ++ [(_requestor self,
                   TransportCall method url qp data h
                     (if timeout_truthy t then t else _timeout self)
                     (_auth self))])%list
  /\ (forall res,
        (make_request_of i fuel self method path pp qp data h t re w).2
        <> Raise (service_error i res)).
Proof.
  intros Hurl Hsession Hfail.
  rewrite (make_request_url _ _ _ _ _ _ _ _ _ _ _ _ _ _ Hurl Hsession).
  cbv zeta. simpl. rewrite Hfail.
  split; [reflexivity |]. split; [reflexivity |].
  intros res. destruct i; discriminate.
Qed.

Lemma transport_failure_propagates_witness :
  url_for Client 0 svc "/ping" None = Ok "http://svc/ping/"
  /\ _requestor svc = UseSession 0%nat
  /\ (HttpClient.make_request 0 svc "GET" "/ping" None None None None None true
        (initial_world (fun _ _ => Fails "connection refused"))).2
     = Raise (TransportError "connection refused").
Proof.
  split; [vm_compute; reflexivity |]. split; [reflexivity |].
  exact (proj1 (transport_failure_propagates Client 0 svc "GET" "/ping" None None
                  None None None true
                  (initial_world (fun _ _ => Fails "connection refused"))
                  "http://svc/ping/" "connection refused" 0%nat
                  ltac:(vm_compute; reflexivity) eq_refl eq_refl)).
Defined.

(** X6: a dispatcher call leaves the sessions, both caches and the transport
    as they were; it keeps the calls issued so far and adds one call or
    none. *)
Theorem make_request_frame (i : implementation) (fuel : nat) (self : instance)
        (method path : string) (pp : option (gmap string Py.value))
        (qp : option (gmap string string)) (data : option string)
        (h : option (gmap string string)) (t : option timeout_value)
        (re : bool) (w : world) :
  sessions (make_request_of i fuel self method path pp qp data h t re w).1
  = sessions w
  /\ services_cache (make_request_of i fuel self method path pp qp data h t re w).1
     = services_cache w
  /\ clients_cache (make_request_of i fuel self method path pp qp data h t re w).1
     = clients_cache w
  /\ transport (make_request_of i fuel self method path pp qp data h t re w).1
     = transport w
  /\ log (make_request_of i fuel self method path pp qp data h t re w).1
     = (log w
        ++ issued_by (make_request_of i fuel self method path pp qp data h t re) w)%list
  /\ (length (issued_by (make_request_of i fuel self method path pp qp data h t re) w)
      <= 1)%nat.
Proof.
  unfold issued_by.
  destruct (url_for i fuel self path pp) as [url | e |] eqn:Hurl.
  - destruct (_requestor self) as [s |] eqn:Hsession.
    + rewrite (make_request_url _ _ _ _ _ _ _ _ _ _ _ _ _ s Hurl Hsession).
      cbv zeta. simpl. rewrite drop_app_length. simpl. repeat split; lia.
    + rewrite (make_request_no_session _ _ _ _ _ _ _ _ _ _ _ _ _ Hurl Hsession).
      simpl. rewrite drop_all, app_nil_r. simpl. repeat split; lia.
  - rewrite make_request_no_url by (rewrite Hurl; discriminate). simpl.
    rewrite drop_all, app_nil_r. simpl. repeat split; lia.
  - rewrite make_request_no_url by (rewrite Hurl; discriminate). simpl.
    rewrite drop_all, app_nil_r. simpl. repeat split; lia.
Qed.

(** X14: path parameters are passed to [_build_url] as keyword arguments,
    so a parameter named [self] or [path] makes the dispatcher raise
    TypeError before any URL is built or any call issued. *)
Theorem reserved_parameter_name (i : implementation) (fuel : nat) (self : instance)
        (method path : string) (params : gmap string Py.value)
        (qp : option (gmap string string)) (data : option string)
        (h : option (gmap string string)) (t : option timeout_value)
        (re : bool) (w : world) :
  is_Some (params !! "self") \/ is_Some (params !! "path") ->
  make_request_of i fuel self method path (Some params) qp data h t re w
  = (w, Raise TypeError).
Proof.
  intros Hres.
  assert (Hne : params <> ∅).
  { intros ->. destruct Hres as [[x Hx] | [x Hx]]; now rewrite lookup_empty in Hx. }
  assert (Hurl : url_for i fuel self path (Some params) = Raise TypeError).
  { unfold url_for, or_empty_dict.
    rewrite (bool_decide_eq_false_2 (params = ∅)) by exact Hne.
    unfold splat. now rewrite bool_decide_eq_true_2 by exact Hres. }
  rewrite make_request_no_url; rewrite Hurl; [reflexivity | discriminate].
Qed.

Lemma reserved_parameter_name_witness :
  (is_Some (({[ "path" := Py.VStr "a" ]} : gmap string Py.value) !! "self")
   \/ is_Some (({[ "path" := Py.VStr "a" ]} : gmap string Py.value) !! "path"))
  /\ HttpService.make_request 1 svc "GET" "/files/{path}"
       (Some {[ "path" := Py.VStr "a" ]}) None None None None true
       (initial_world (fun _ _ => Answers not_found))
     = (initial_world (fun _ _ => Answers not_found), Raise TypeError).
Proof.
  assert (H : is_Some (({[ "path" := Py.VStr "a" ]} : gmap string Py.value) !! "self")
              \/ is_Some (({[ "path" := Py.VStr "a" ]} : gmap string Py.value) !! "path")).
  { right. exists (Py.VStr "a"). vm_compute. reflexivity. }
  split; [exact H |].
  exact (reserved_parameter_name Service 1 svc "GET" "/files/{path}"
           {[ "path" := Py.VStr "a" ]} None None None None true
           (initial_world (fun _ _ => Answers not_found)) H).
Defined.

(** ** More on the factories and the caches *)

Lemma new_session_state (cls : factory) (w : world) :
  store_with_new_session cls w !! length (sessions w)
  = Some (Session (<["https://" := max_retires cls]>
                     (<["http://" := max_retires cls]> ∅))
                  (default_headers cls)).
Proof.
  unfold store_with_new_session. rewrite !list_lookup_alter_eq.
  rewrite (list_lookup_middle (sessions w) [] (Session ∅ ∅) (length (sessions w)) eq_refl).
  simpl. now rewrite (right_id ∅ (∪)).
Qed.

Lemma old_session_state (cls : factory) (w : world) (k : nat) (st : session_state) :
  sessions w !! k = Some st -> store_with_new_session cls w !! k = Some st.
Proof.
  intros H. pose proof (lookup_lt_Some _ _ _ H) as Hk.
  unfold store_with_new_session.
  rewrite !list_lookup_alter_ne by lia. now rewrite lookup_app_l.
Qed.

Lemma sessions_new_session_lookup (i : implementation) cls w k st :
  sessions w !! k = Some st ->
  sessions (world_with_new_session i cls w) !! k = Some st.
Proof. destruct i; apply old_session_state. Qed.

(** A session, once in the store, keeps its state. *)
Lemma sessions_stable_action (a : action) (w : world) (k : nat) (st : session_state) :
  sessions w !! k = Some st -> sessions (run_action a w) !! k = Some st.
Proof.
  intros H. destruct a as [i cls kw | i fuel self method path pp qp data h t re]; simpl.
  - destruct (factory_world i cls kw w) as [(r & _ & ->) | (_ & ->)];
      [exact H | now apply sessions_new_session_lookup].
  - destruct (make_request_world i fuel self method path pp qp data h t re w) as [Hs _].
    now rewrite Hs.
Qed.

Lemma sessions_stable_run (acts : list action) (w : world) (k : nat) (st : session_state) :
  sessions w !! k = Some st -> sessions (run acts w) !! k = Some st.
Proof.
  revert w. induction acts as [| a acts IH]; intros w H; [exact H |].
  apply IH. now apply sessions_stable_action.
Qed.

Lemma sessions_grow_action (a : action) (w : world) :
  (length (sessions w) <= length (sessions (run_action a w)))%nat.
Proof.
  destruct a as [i cls kw | i fuel self method path pp qp data h t re]; simpl.
  - destruct (factory_world i cls kw w) as [(r & _ & ->) | (_ & ->)]; [lia |].
    rewrite sessions_new_session. lia.
  - destruct (make_request_world i fuel self method path pp qp data h t re w) as [Hs _].
    rewrite Hs. lia.
Qed.

Lemma sessions_grow_run (acts : list action) (w : world) :
  (length (sessions w) <= length (sessions (run acts w)))%nat.
Proof.
  revert w. induction acts as [| a acts IH]; intros w; [simpl; lia |].
  simpl. etransitivity; [apply (sessions_grow_action a) | apply IH].
Qed.

(** X7: the first factory call for a type name creates a session on which
    it mounts one adapter, carrying the class's retry count, on "http://" and
    on "https://", and puts the class's default headers (the state of a
    session records what this layer puts on it).  Whatever runs
    afterwards, a later call of the factory under the same name, even with
    other headers and another retry count, finds that session as it was
    configured the first time. *)
Theorem first_configuration_stays (i : implementation) (w : world)
        (between : list action) (cls1 cls2 : factory)
        (kw1 kw2 : option (gmap string Py.value)) :
  cache_of i w !! __name__ cls1 = None ->
  __name__ cls2 = __name__ cls1 ->
  cache_of i
    (factory_of i cls2 kw2 (run between (factory_of i cls1 kw1 w).1)).1
    !! __name__ cls1
  = Some (length (sessions w))
  /\ sessions
       (factory_of i cls2 kw2 (run between (factory_of i cls1 kw1 w).1)).1
       !! length (sessions w)
     = Some (Session (<["https://" := max_retires cls1]>
                        (<["http://" := max_retires cls1]> ∅))
                     (default_headers cls1)).
Proof.
  intros Hnone Hname.
  rewrite (factory_fresh i cls1 kw1 w Hnone). simpl fst.
  split.
  - apply (cache_stable_action (CallFactory i cls2 kw2)), cache_stable_run.
    rewrite cache_of_new_session_same. apply lookup_insert_eq.
  - apply (sessions_stable_action (CallFactory i cls2 kw2)), sessions_stable_run.
    destruct i; apply new_session_state.
Qed.

Lemma first_configuration_stays_witness :
  cache_of Service (initial_world (fun _ _ => Answers not_found)) !! __name__ Orders
  = None
  /\ __name__ OrdersAgain = __name__ Orders
  /\ sessions
       (HttpServiceFactory.make_service OrdersAgain None
          (HttpServiceFactory.make_service Orders None
             (initial_world (fun _ _ => Answers not_found))).1).1
       !! 0%nat
     = Some (Session (<["https://" := 3]> (<["http://" := 3]> ∅)) ∅).
Proof.
  split; [reflexivity |]. split; [reflexivity |].
  exact (proj2 (first_configuration_stays Service
                  (initial_world (fun _ _ => Answers not_found)) []
                  Orders OrdersAgain None None eq_refl eq_refl)).
Defined.

(** X8: a factory call that creates the session but then fails to build the
    client (the auth class raises, or the root is empty) has cached the
    session all the same: the next call under that name creates nothing. *)
Theorem failed_construction_still_caches (i : implementation) (cls : factory)
        (kw kw' : option (gmap string Py.value)) (w : world) (e : exn) :
  cache_of i w !! __name__ cls = None ->
  (factory_of i cls kw w).2 = Raise e ->
  cache_of i (factory_of i cls kw w).1 !! __name__ cls = Some (length (sessions w))
  /\ length (sessions (factory_of i cls kw w).1) = S (length (sessions w))
  /\ (factory_of i cls kw' (factory_of i cls kw w).1).1 = (factory_of i cls kw w).1.
Proof.
  intros Hnone _. rewrite (factory_fresh i cls kw w Hnone). simpl fst.
  assert (Hc : cache_of i (world_with_new_session i cls w) !! __name__ cls
               = Some (length (sessions w))).
  { rewrite cache_of_new_session_same. apply lookup_insert_eq. }
  split; [exact Hc |]. split; [apply sessions_new_session |].
  now rewrite (factory_cached i cls kw' _ _ Hc).
Qed.

Lemma failed_construction_still_caches_witness :
  cache_of Service (initial_world (fun _ _ => Answers not_found))
    !! __name__ (HttpServiceFactory.defaults "Base") = None
  /\ (HttpServiceFactory.make_service (HttpServiceFactory.defaults "Base") None
        (initial_world (fun _ _ => Answers not_found))).2 = Raise IndexError
  /\ services_cache
       (HttpServiceFactory.make_service (HttpServiceFactory.defaults "Base") None
          (initial_world (fun _ _ => Answers not_found))).1 !! "Base"
     = Some 0%nat.
Proof.
  assert (H1 : cache_of Service (initial_world (fun _ _ => Answers not_found))
                 !! __name__ (HttpServiceFactory.defaults "Base") = None)
    by reflexivity.
  assert (H2 : (factory_of Service (HttpServiceFactory.defaults "Base") None
                  (initial_world (fun _ _ => Answers not_found))).2
               = Raise IndexError) by (vm_compute; reflexivity).
  split; [exact H1 |]. split; [exact H2 |].
  exact (proj1 (failed_construction_still_caches Service
                  (HttpServiceFactory.defaults "Base") None None
                  (initial_world (fun _ _ => Answers not_found)) IndexError H1 H2)).
Defined.

(** X9: nothing is evicted and nothing is reconfigured: through any run of
    factory calls and requests a cached name keeps its session, a session
    keeps its adapters and headers, and the store of sessions never
    shrinks. *)
Theorem nothing_is_evicted (acts : list action) (w : world) (j : implementation)
        (name : string) (r : session_ref) (st : session_state) :
  cache_of j w !! name = Some r ->
  sessions w !! r = Some st ->
  cache_of j (run acts w) !! name = Some r
  /\ sessions (run acts w) !! r = Some st
  /\ (length (sessions w) <= length (sessions (run acts w)))%nat.
Proof.
  intros Hc Hs. split; [now apply cache_stable_run |].
  split; [now apply sessions_stable_run | apply sessions_grow_run].
Qed.

Lemma nothing_is_evicted_witness :
  cache_of Service world_with_orders !! "Orders" = Some 0%nat
  /\ sessions world_with_orders !! 0%nat = Some orders_session
  /\ cache_of Service (run later_actions world_with_orders) !! "Orders" = Some 0%nat
  /\ sessions (run later_actions world_with_orders) !! 0%nat = Some orders_session
  /\ (length (sessions world_with_orders)
      <= length (sessions (run later_actions world_with_orders)))%nat.
Proof.
  assert (H1 : cache_of Service world_with_orders !! "Orders" = Some 0%nat)
    by (vm_compute; reflexivity).
  assert (H2 : sessions world_with_orders !! 0%nat = Some orders_session)
    by (vm_compute; reflexivity).
  split; [exact H1 |]. split; [exact H2 |].
  exact (nothing_is_evicted later_actions world_with_orders Service "Orders" 0%nat
           orders_session H1 H2).
Defined.

(** X10: the two [SessionCache] classes.  [get] after [set] under the same
    name returns the session just stored, the last [set] wins, other names
    are not affected, a name never stored gives the absent value, [get]
    changes nothing, and the cache of sessions.py and the one of client.py
    do not see each other's entries. *)
Theorem session_cache_round_trip (w : world) (name other_name : string)
        (s1 s2 : session_ref) (t : list issued -> issued -> transport_answer) :
  (SessionCache.get name (SessionCache.set name s1 w).1).2 = Ok (Some s1)
  /\ (ClientSessionCache.get name (ClientSessionCache.set name s1 w).1).2
     = Ok (Some s1)
  /\ (SessionCache.get name
        (SessionCache.set name s2 (SessionCache.set name s1 w).1).1).2
     = Ok (Some s2)
  /\ (ClientSessionCache.get name
        (ClientSessionCache.set name s2 (ClientSessionCache.set name s1 w).1).1).2
     = Ok (Some s2)
  /\ (other_name <> name ->
      (SessionCache.get other_name (SessionCache.set name s1 w).1).2
      = (SessionCache.get other_name w).2
      /\ (ClientSessionCache.get other_name (ClientSessionCache.set name s1 w).1).2
         = (ClientSessionCache.get other_name w).2)
  /\ (ClientSessionCache.get other_name (SessionCache.set name s1 w).1).2
     = (ClientSessionCache.get other_name w).2
  /\ (SessionCache.get other_name (ClientSessionCache.set name s1 w).1).2
     = (SessionCache.get other_name w).2
  /\ (SessionCache.get name w).1 = w
  /\ (ClientSessionCache.get name w).1 = w
  /\ (SessionCache.get name (initial_world t)).2 = Ok None
  /\ (ClientSessionCache.get name (initial_world t)).2 = Ok None.
Proof.
  unfold SessionCache.get, SessionCache.set, ClientSessionCache.get,
    ClientSessionCache.set. simpl.
  rewrite !lookup_insert_eq, !lookup_empty.
  repeat split; try reflexivity.
  - now rewrite lookup_insert_ne by congruence.
  - now rewrite lookup_insert_ne by congruence.
Qed.

Lemma append_inj_l (p a b : string) : p +:+ a = p +:+ b -> a = b.
Proof.
  induction p as [| c p IH]; [trivial |]. rewrite !append_cons. intros [= H].
  now apply IH.
Qed.

Lemma make_auth_jwt (token : Py.value) :
  make_auth (Some JwtAuth_class) (Some {[ "token" := token ]})
  = Ok (Some (JwtAuth token)).
Proof.
  unfold make_auth, or_empty_dict, JwtAuth_class.
  rewrite (bool_decide_eq_false_2 (_ = ∅)) by apply map_non_empty_singleton.
  rewrite lookup_singleton_eq, bool_decide_eq_true_2 by apply dom_singleton_L.
  reflexivity.
Qed.

Lemma make_auth_jwt_no_arguments (kw : option (gmap string Py.value)) :
  kw = None \/ kw = Some ∅ ->
  make_auth (Some JwtAuth_class) kw = Raise TypeError.
Proof.
  intros [-> | ->]; unfold make_auth, or_empty_dict, JwtAuth_class.
  - now rewrite lookup_empty.
  - rewrite bool_decide_eq_true_2 by reflexivity. now rewrite lookup_empty.
Qed.

Lemma factory_result (i : implementation) cls kw w :
  exists r,
    cache_of i (factory_of i cls kw w).1 !! __name__ cls = Some r
    /\ (factory_of i cls kw w).2
       = (a ← make_auth (auth cls) kw;
          init_of i (service_root cls) (Some r) a None).
Proof.
  destruct (cache_of i w !! __name__ cls) as [r |] eqn:H.
  - exists r. now rewrite (factory_cached i cls kw w r H).
  - exists (length (sessions w)). rewrite (factory_fresh i cls kw w H). simpl.
    split; [| reflexivity]. rewrite cache_of_new_session_same. apply lookup_insert_eq.
Qed.

Lemma init_shape (i : implementation) root r a t c :
  init_of i root (Some r) a t = Ok c ->
  root <> "" /\ c = Instance (spec_normalize_root root) (UseSession r) a t.
Proof.
  intros H. destruct (decide (root = "")) as [-> | Hne].
  - rewrite init_empty in H. discriminate.
  - split; [exact Hne |]. rewrite init_nonempty in H by exact Hne. now injection H.
Qed.

(** What a client that a factory returns is made of. *)
Lemma factory_client (i : implementation) cls kw w c :
  (factory_of i cls kw w).2 = Ok c ->
  exists r a,
    make_auth (auth cls) kw = Ok a
    /\ service_root cls <> ""
    /\ cache_of i (factory_of i cls kw w).1 !! __name__ cls = Some r
    /\ c = Instance (spec_normalize_root (service_root cls)) (UseSession r) a None.
Proof.
  destruct (factory_result i cls kw w) as (r & Hr & ->).
  destruct (make_auth (auth cls) kw) as [a | e |]; simpl; try discriminate.
  intros H. apply init_shape in H as [Hne ->]. now exists r, a.
Qed.

(** X12: how a factory builds the auth object.  With no auth class the
    client has no auth, whatever keyword arguments are given; with the class
    [JwtAuth] and the keyword [token] the client holds a [JwtAuth] with that
    token; with the class [JwtAuth] and no keyword arguments (none given, or
    an empty dictionary) the call raises TypeError. *)
Theorem factory_auth_construction (i : implementation) (cls : factory)
        (kw : option (gmap string Py.value)) (token : Py.value) (w : world) :
  service_root cls <> "" ->
  (auth cls = None ->
   exists r,
     (factory_of i cls kw w).2
     = Ok (Instance (spec_normalize_root (service_root cls)) (UseSession r) None None))
  /\ (auth cls = Some JwtAuth_class ->
      exists r,
        (factory_of i cls (Some {[ "token" := token ]}) w).2
        = Ok (Instance (spec_normalize_root (service_root cls)) (UseSession r)
                       (Some (JwtAuth token)) None))
  /\ (auth cls = Some JwtAuth_class -> kw = None \/ kw = Some ∅ ->
      (factory_of i cls kw w).2 = Raise TypeError).
Proof.
  intros Hroot. split; [| split].
  - intros Ha. apply factory_returns; [exact Hroot | now rewrite Ha].
  - intros Ha. apply factory_returns; [exact Hroot |]. rewrite Ha. apply make_auth_jwt.
  - intros Ha Hkw. destruct (factory_result i cls kw w) as (r & _ & ->).
    now rewrite Ha, make_auth_jwt_no_arguments.
Qed.

Lemma factory_auth_construction_witness :
  service_root Orders <> ""
  /\ (auth Orders = Some JwtAuth_class)
  /\ (HttpServiceFactory.make_service Orders None
        (initial_world (fun _ _ => Answers not_found))).2 = Raise TypeError
  /\ exists r,
      (HttpServiceFactory.make_service Orders (Some {[ "token" := Py.VStr "k" ]})
         (initial_world (fun _ _ => Answers not_found))).2
      = Ok (Instance (spec_normalize_root (service_root Orders)) (UseSession r)
              (Some (JwtAuth (Py.VStr "k"))) None).
Proof.
  assert (Hroot : service_root Orders <> "") by discriminate.
  destruct (factory_auth_construction Service Orders None (Py.VStr "k")
              (initial_world (fun _ _ => Answers not_found)) Hroot)
    as (_ & H2 & H3).
  split; [exact Hroot |]. split; [reflexivity |].
  split; [apply H3; [reflexivity | now left] | apply H2; reflexivity].
Defined.

(** X13: a client that a factory returns has the normalised root of the
    class, the session cached under the class's name, and no default
    timeout: the [timeout] attribute of the class is not passed on, so a verb
    shortcut of that client issues its call with no timeout at all. *)
Theorem factory_timeout_not_passed (i : implementation) (cls : factory)
        (kw : option (gmap string Py.value)) (w w' : world) (c : instance)
        (v : verb) (fuel : nat) (path : string)
        (pp : option (gmap string Py.value)) (qp : option (gmap string string))
        (data : option string) (h : option (gmap string string)) (re : bool)
        (url : string) :
  (factory_of i cls kw w).2 = Ok c ->
  url_for i fuel c path pp = Ok url ->
  _timeout c = None
  /\ _url_root c = spec_normalize_root (service_root cls)
  /\ (exists r, _requestor c = UseSession r
                /\ cache_of i (factory_of i cls kw w).1 !! __name__ cls = Some r)
  /\ issued_by (shortcut i v fuel c path pp qp data h re) w'
     = [(_requestor c,
         TransportCall (verb_name v) url (verb_query v qp) (verb_data v data) h
                       None (_auth c))].
Proof.
  intros Hc Hurl.
  destruct (factory_client i cls kw w c Hc) as (r & a & _ & _ & Hr & ->).
  split; [reflexivity |]. split; [reflexivity |].
  split; [now exists r |].
  rewrite shortcut_eq.
  now rewrite (issued_by_make_request _ _ _ _ _ _ _ _ _ _ _ _ url r).
Qed.

Lemma factory_timeout_not_passed_witness :
  timeout Billing = Some (TPair 3 10)
  /\ (HttpServiceFactory.make_service Billing None
        (initial_world (fun _ _ => Answers not_found))).2
     = Ok (Instance "http://billing/" (UseSession 0%nat) None None)
  /\ issued_by
       (HttpService.get 0 (Instance "http://billing/" (UseSession 0%nat) None None)
          "/invoices" None None None true)
       (initial_world (fun _ _ => Answers not_found))
     = [(UseSession 0%nat,
         TransportCall "GET" "http://billing/invoices/" None None None None None)].
Proof.
  assert (H1 : (factory_of Service Billing None
                  (initial_world (fun _ _ => Answers not_found))).2
               = Ok (Instance "http://billing/" (UseSession 0%nat) None None))
    by (vm_compute; reflexivity).
  assert (H2 : url_for Service 0 (Instance "http://billing/" (UseSession 0%nat) None None)
                 "/invoices" None = Ok "http://billing/invoices/")
    by (vm_compute; reflexivity).
  split; [reflexivity |]. split; [exact H1 |].
  exact (proj2 (proj2 (proj2
           (factory_timeout_not_passed Service Billing None
              (initial_world (fun _ _ => Answers not_found))
              (initial_world (fun _ _ => Answers not_found))
              (Instance "http://billing/" (UseSession 0%nat) None None)
              GET 0 "/invoices" None None None None true
              "http://billing/invoices/" H1 H2)))).
Defined.

(** X11: two clients of one factory built with different tokens share the
    session of the factory's name, each holds its own [JwtAuth], the
    Authorization values the two attach to a request differ, and the shared
    session keeps the state it had: the auth lives in the client, not in the
    session. *)
Theorem auth_isolation (i : implementation) (cls : factory) (w : world)
        (between : list action) (ta tb : string) (c1 c2 : instance)
        (h : gmap string string) :
  auth cls = Some JwtAuth_class ->
  ta <> tb ->
  (factory_of i cls (Some {[ "token" := Py.VStr ta ]}) w).2 = Ok c1 ->
  (factory_of i cls (Some {[ "token" := Py.VStr tb ]})
     (run between (factory_of i cls (Some {[ "token" := Py.VStr ta ]}) w).1)).2
  = Ok c2 ->
  _requestor c1 = _requestor c2
  /\ _auth c1 = Some (JwtAuth (Py.VStr ta))
  /\ _auth c2 = Some (JwtAuth (Py.VStr tb))
  /\ JwtAuth_call (JwtAuth (Py.VStr ta)) h !! "Authorization" = Some ("JWT " +:+ ta)
  /\ JwtAuth_call (JwtAuth (Py.VStr tb)) h !! "Authorization" = Some ("JWT " +:+ tb)
  /\ "JWT " +:+ ta <> "JWT " +:+ tb
  /\ (forall r st,
        _requestor c1 = UseSession r ->
        sessions (factory_of i cls (Some {[ "token" := Py.VStr ta ]}) w).1 !! r
        = Some st ->
        sessions
          (factory_of i cls (Some {[ "token" := Py.VStr tb ]})
             (run between (factory_of i cls (Some {[ "token" := Py.VStr ta ]}) w).1)).1
          !! r
        = Some st).
Proof.
  intros Ha Hne H1 H2.
  destruct (factory_client _ _ _ _ _ H1) as (r1 & a1 & Ha1 & _ & Hr1 & ->).
  destruct (factory_client _ _ _ _ _ H2) as (r2 & a2 & Ha2 & _ & Hr2 & ->).
  rewrite Ha, make_auth_jwt in Ha1, Ha2. injection Ha1 as <-. injection Ha2 as <-.
  assert (Hr1' : cache_of i
                   (factory_of i cls (Some {[ "token" := Py.VStr tb ]})
                      (run between
                         (factory_of i cls (Some {[ "token" := Py.VStr ta ]}) w).1)).1
                   !! __name__ cls = Some r1).
  { apply (cache_stable_action (CallFactory i cls _)), cache_stable_run, Hr1. }
  rewrite Hr2 in Hr1'. injection Hr1' as ->.
  simpl. split; [reflexivity |]. split; [reflexivity |]. split; [reflexivity |].
  split; [apply lookup_insert_eq |]. split; [apply lookup_insert_eq |].
  split; [intros E; now apply append_inj_l in E |].
  intros r st _ Hst.
  now apply (sessions_stable_action (CallFactory i cls _)), sessions_stable_run.
Qed.

Lemma auth_isolation_witness :
  auth Orders = Some JwtAuth_class
  /\ "alice" <> "bob"
  /\ (HttpServiceFactory.make_service Orders (Some {[ "token" := Py.VStr "alice" ]})
        (initial_world (fun _ _ => Answers not_found))).2
     = Ok (Instance "http://orders/" (UseSession 0%nat)
             (Some (JwtAuth (Py.VStr "alice"))) None)
  /\ (HttpServiceFactory.make_service Orders (Some {[ "token" := Py.VStr "bob" ]})
        (HttpServiceFactory.make_service Orders (Some {[ "token" := Py.VStr "alice" ]})
           (initial_world (fun _ _ => Answers not_found))).1).2
     = Ok (Instance "http://orders/" (UseSession 0%nat)
             (Some (JwtAuth (Py.VStr "bob"))) None)
  /\ JwtAuth_call (JwtAuth (Py.VStr "alice")) ∅ !! "Authorization" = Some "JWT alice"
  /\ JwtAuth_call (JwtAuth (Py.VStr "bob")) ∅ !! "Authorization" = Some "JWT bob".
Proof.
  assert (H1 : (factory_of Service Orders (Some {[ "token" := Py.VStr "alice" ]})
                  (initial_world (fun _ _ => Answers not_found))).2
               = Ok (Instance "http://orders/" (UseSession 0%nat)
                       (Some (JwtAuth (Py.VStr "alice"))) None))
    by (vm_compute; reflexivity).
  assert (H2 : (factory_of Service Orders (Some {[ "token" := Py.VStr "bob" ]})
                  (run [] (factory_of Service Orders
                             (Some {[ "token" := Py.VStr "alice" ]})
                             (initial_world (fun _ _ => Answers not_found))).1)).2
               = Ok (Instance "http://orders/" (UseSession 0%nat)
                       (Some (JwtAuth (Py.VStr "bob"))) None))
    by (vm_compute; reflexivity).
  assert (Hne : "alice" <> "bob") by discriminate.
  destruct (auth_isolation Service Orders _ [] "alice" "bob" _ _ ∅ eq_refl Hne H1 H2)
    as (_ & _ & _ & H4 & H5 & _).
  split; [reflexivity |]. split; [exact Hne |]. split; [exact H1 |].
  split; [exact H2 |]. split; [exact H4 | exact H5].
Defined.

(** ** A client built without a session *)

Lemma init_without_session (i : implementation) value a t c :
  init_of i value None a t = Ok c -> _requestor c = UseRequestsFunction.
Proof.
  destruct i; simpl; unfold HttpService.__init__, HttpClient.__init__;
    (destruct (_ value) as [root | e |]; simpl; [| discriminate | discriminate]);
    now intros [= <-].
Qed.

(** X15: a client constructed with no session keeps the function
    [requests.request] as its requestor; the dispatcher then looks up
    [request] on that function, so every call whose URL is built ends in
    AttributeError, for the dispatcher and for each verb shortcut, with no
    transport call issued and the state left as it was. *)
Theorem sessionless_client_cannot_request (i : implementation) (value : string)
        (a : option auth_object) (t0 : option timeout_value) (c : instance)
        (fuel : nat) (path : string) (pp : option (gmap string Py.value))
        (url : string) :
  init_of i value None a t0 = Ok c ->
  url_for i fuel c path pp = Ok url ->
  (forall method qp data h t re w,
      make_request_of i fuel c method path pp qp data h t re w
      = (w, Raise AttributeError))
  /\ (forall v qp data h re w,
        shortcut i v fuel c path pp qp data h re w = (w, Raise AttributeError)).
Proof.
  intros Hinit Hurl. apply init_without_session in Hinit.
  assert (H : forall method qp data h t re w,
             make_request_of i fuel c method path pp qp data h t re w
             = (w, Raise AttributeError)).
  { intros. now apply (make_request_no_session _ _ _ _ _ _ _ _ _ _ _ _ url). }
  split; [exact H |]. intros. rewrite shortcut_eq. apply H.
Qed.

Lemma sessionless_client_cannot_request_witness :
  HttpService.__init__ "http://svc" None None None
  = Ok (Instance "http://svc/" UseRequestsFunction None None)
  /\ url_for Service 0 (Instance "http://svc/" UseRequestsFunction None None) "/ping" None
     = Ok "http://svc/ping/"
  /\ HttpService.get 0 (Instance "http://svc/" UseRequestsFunction None None)
       "/ping" None None None false (initial_world (fun _ _ => Answers not_found))
     = (initial_world (fun _ _ => Answers not_found), Raise AttributeError).
Proof.
  assert (H1 : init_of Service "http://svc" None None None
               = Ok (Instance "http://svc/" UseRequestsFunction None None))
    by (vm_compute; reflexivity).
  assert (H2 : url_for Service 0 (Instance "http://svc/" UseRequestsFunction None None)
                 "/ping" None = Ok "http://svc/ping/") by (vm_compute; reflexivity).
  split; [exact H1 |]. split; [exact H2 |].
  exact (proj2 (sessionless_client_cannot_request Service "http://svc" None None _
                  0 "/ping" None "http://svc/ping/" H1 H2)
           GET None None None false (initial_world (fun _ _ => Answers not_found))).
Defined.
